(** * Chronex: the reward ledger, daily focus tracker and budget estimate

    A shallow embedding of [app.py].  Every route handler of the application
    is a function from the request's inputs and the stored state to an
    outcome: the new state, the messages flashed and the response, or an
    unhandled exception, after which nothing has been committed.

    Conventions.
    - Integer columns are [Z]; timestamps are microseconds, dates are days.
    - Amounts ([Float] columns) are exact rationals [Qc], and the two
      quotients the handlers pass to [int()] are exact: binary rounding of
      floating point numbers is not represented.
    - JSON bodies are Python values ([pyval]) without floats.
    - Tables are lists of rows in insertion order; [.first()] is [find].
    - [request.form] and [request.args] are finite maps from field names to
      text.
    - The password hashing functions, [strptime], [float] and the coercion
      of a text parameter compared with an integer column belong to the
      libraries the application runs on; they are variables of the section
      that holds the handlers. *)

From Stdlib Require Import ZArith QArith Qcanon Qround String Ascii DecimalString List Lia Lqa Bool.
From stdpp Require Import gmap strings list pretty.
Import ListNotations.

#[local] Set Warnings "-register-all".
#[local] Open Scope string_scope.
#[local] Open Scope Z_scope.

(** ** Text *)

Module Text.

(** [str.lower] on the ASCII letters. *)
Definition lower_ascii (c : ascii) : ascii :=
  let n := nat_of_ascii c in
  if ((65 <=? n) && (n <=? 90))%nat then ascii_of_nat (n + 32) else c.

Fixpoint lower (s : string) : string :=
  match s with
  | EmptyString => EmptyString
  | String c s' => String (lower_ascii c) (lower s')
  end.

(** The ASCII characters [str.strip] removes. *)
Definition is_space (c : ascii) : bool :=
  let n := nat_of_ascii c in
  (((9 <=? n) && (n <=? 13)) || ((28 <=? n) && (n <=? 32)))%nat.

Fixpoint lstrip_list (l : list ascii) : list ascii :=
  match l with
  | [] => []
  | c :: l' => if is_space c then lstrip_list l' else l
  end.

Definition strip (s : string) : string :=
  string_of_list_ascii
    (rev (lstrip_list (rev (lstrip_list (list_ascii_of_string s))))).

(** Truth value of a string: non-empty. *)
Definition nonempty (s : string) : bool :=
  match s with EmptyString => false | String _ _ => true end.

(** [request.form.get(key, '').strip().lower()] *)
Definition field_normalised (form : gmap string string) (key : string) : string :=
  lower (strip (default EmptyString (form !! key))).

End Text.

(** ** Python values carried by a JSON body *)

Inductive pyval : Type :=
| PyNone
| PyBool (b : bool)
| PyInt (z : Z)
| PyStr (s : string)
| PyList (l : list pyval)
| PyDict (d : gmap string pyval).

Module Py.

(** Truth value of an object, as [or] and [if] test it. *)
Definition truthy (v : pyval) : bool :=
  match v with
  | PyNone => false
  | PyBool b => b
  | PyInt z => negb (z =? 0)
  | PyStr s => Text.nonempty s
  | PyList l => match l with [] => false | _ :: _ => true end
  | PyDict d => negb (bool_decide (d = ∅))
  end.

(** [v or {}] *)
Definition or_empty_dict (v : pyval) : pyval :=
  if truthy v then v else PyDict ∅.

(** [v.get(key, dflt)]: only a dict has the method; [None] stands for the
    [AttributeError] any other object raises. *)
Definition get (v : pyval) (key : string) (dflt : pyval) : option pyval :=
  match v with
  | PyDict d => Some (default dflt (d !! key))
  | _ => None
  end.

(** The integer an operand of [int + v] or [v > 0] contributes: [bool] is a
    subclass of [int]; [None] stands for the [TypeError] of other operands. *)
Definition as_int (v : pyval) : option Z :=
  match v with
  | PyInt z => Some z
  | PyBool b => Some (Z.b2z b)
  | _ => None
  end.

(** [n + v] for an integer [n]. *)
Definition int_add (n : Z) (v : pyval) : option Z :=
  match as_int v with Some z => Some (n + z) | None => None end.

End Py.

(** ** Rational arithmetic of the budget page *)

Module Num.

Definition Qc_leb (x y : Qc) : bool := Qle_bool (this x) (this y).
Definition Qc_ltb (x y : Qc) : bool := negb (Qle_bool (this y) (this x)).
Definition Qc_nonzero (x : Qc) : bool := negb (Qeq_bool (this x) 0).
Definition Qc_max (x y : Qc) : Qc := if Qc_leb x y then y else x.

(** Nearest integer, ties to the even one. *)
Definition round_half_even (q : Q) : Z :=
  let f := Qfloor q in
  match Qcompare (q - inject_Z f) (1 # 2) with
  | Lt => f
  | Gt => f + 1
  | Eq => if Z.even f then f else f + 1
  end.

(** [round(x, ndigits)] *)
Definition py_round (x : Qc) (ndigits : nat) : Qc :=
  let scale := inject_Z (10 ^ Z.of_nat ndigits) in
  Q2Qc (inject_Z (round_half_even (this x * scale)) / scale).

Definition Qc_sum (l : list Qc) : Qc := fold_right Qcplus (Q2Qc 0) l.

End Num.

(** ** Rows *)

Module User.

(** A row of the [user] table: credentials, the cumulative counters of the
    Focus Farm, the daily focus counter with the date it belongs to, the five
    achievement flags and the single savings goal.  Timestamps are counted in
    microseconds and dates in days.  Columns without a NOT NULL constraint
    that the application may leave empty are options. *)
Record t : Type := mk {
  id : Z;
  username : string;
  email : option string;
  password_hash : string;
  total_focus_points : Z;
  stars_earned : Z;
  energy_bank_balance : Z;
  last_energy_collection_time : Z;
  focus_minutes_today : Z;
  focus_tracking_date : option Z;
  account_created_at : Z;
  achievement_first_login : bool;
  achievement_first_focus : bool;
  achievement_first_task : bool;
  achievement_first_note : bool;
  achievement_email_added : bool;
  savings_goal_name : option string;
  savings_goal_target : option Qc
}.

Definition set_email (v : option string) (r : t) : t :=
  {| id := id r; username := username r; email := v;
     password_hash := password_hash r; total_focus_points := total_focus_points r;
     stars_earned := stars_earned r; energy_bank_balance := energy_bank_balance r;
     last_energy_collection_time := last_energy_collection_time r;
     focus_minutes_today := focus_minutes_today r;
     focus_tracking_date := focus_tracking_date r;
     account_created_at := account_created_at r;
     achievement_first_login := achievement_first_login r;
     achievement_first_focus := achievement_first_focus r;
     achievement_first_task := achievement_first_task r;
     achievement_first_note := achievement_first_note r;
     achievement_email_added := achievement_email_added r;
     savings_goal_name := savings_goal_name r;
     savings_goal_target := savings_goal_target r |}.

Definition set_password_hash (v : string) (r : t) : t :=
  {| id := id r; username := username r; email := email r; password_hash := v;
     total_focus_points := total_focus_points r; stars_earned := stars_earned r;
     energy_bank_balance := energy_bank_balance r;
     last_energy_collection_time := last_energy_collection_time r;
     focus_minutes_today := focus_minutes_today r;
     focus_tracking_date := focus_tracking_date r;
     account_created_at := account_created_at r;
     achievement_first_login := achievement_first_login r;
     achievement_first_focus := achievement_first_focus r;
     achievement_first_task := achievement_first_task r;
     achievement_first_note := achievement_first_note r;
     achievement_email_added := achievement_email_added r;
     savings_goal_name := savings_goal_name r;
     savings_goal_target := savings_goal_target r |}.

Definition set_total_focus_points (v : Z) (r : t) : t :=
  {| id := id r; username := username r; email := email r;
     password_hash := password_hash r; total_focus_points := v;
     stars_earned := stars_earned r; energy_bank_balance := energy_bank_balance r;
     last_energy_collection_time := last_energy_collection_time r;
     focus_minutes_today := focus_minutes_today r;
     focus_tracking_date := focus_tracking_date r;
     account_created_at := account_created_at r;
     achievement_first_login := achievement_first_login r;
     achievement_first_focus := achievement_first_focus r;
     achievement_first_task := achievement_first_task r;
     achievement_first_note := achievement_first_note r;
     achievement_email_added := achievement_email_added r;
     savings_goal_name := savings_goal_name r;
     savings_goal_target := savings_goal_target r |}.

Definition set_stars_earned (v : Z) (r : t) : t :=
  {| id := id r; username := username r; email := email r;
     password_hash := password_hash r; total_focus_points := total_focus_points r;
     stars_earned := v; energy_bank_balance := energy_bank_balance r;
     last_energy_collection_time := last_energy_collection_time r;
     focus_minutes_today := focus_minutes_today r;
     focus_tracking_date := focus_tracking_date r;
     account_created_at := account_created_at r;
     achievement_first_login := achievement_first_login r;
     achievement_first_focus := achievement_first_focus r;
     achievement_first_task := achievement_first_task r;
     achievement_first_note := achievement_first_note r;
     achievement_email_added := achievement_email_added r;
     savings_goal_name := savings_goal_name r;
     savings_goal_target := savings_goal_target r |}.

Definition set_energy_bank_balance (v : Z) (r : t) : t :=
  {| id := id r; username := username r; email := email r;
     password_hash := password_hash r; total_focus_points := total_focus_points r;
     stars_earned := stars_earned r; energy_bank_balance := v;
     last_energy_collection_time := last_energy_collection_time r;
     focus_minutes_today := focus_minutes_today r;
     focus_tracking_date := focus_tracking_date r;
     account_created_at := account_created_at r;
     achievement_first_login := achievement_first_login r;
     achievement_first_focus := achievement_first_focus r;
     achievement_first_task := achievement_first_task r;
     achievement_first_note := achievement_first_note r;
     achievement_email_added := achievement_email_added r;
     savings_goal_name := savings_goal_name r;
     savings_goal_target := savings_goal_target r |}.

Definition set_last_energy_collection_time (v : Z) (r : t) : t :=
  {| id := id r; username := username r; email := email r;
     password_hash := password_hash r; total_focus_points := total_focus_points r;
     stars_earned := stars_earned r; energy_bank_balance := energy_bank_balance r;
     last_energy_collection_time := v;
     focus_minutes_today := focus_minutes_today r;
     focus_tracking_date := focus_tracking_date r;
     account_created_at := account_created_at r;
     achievement_first_login := achievement_first_login r;
     achievement_first_focus := achievement_first_focus r;
     achievement_first_task := achievement_first_task r;
     achievement_first_note := achievement_first_note r;
     achievement_email_added := achievement_email_added r;
     savings_goal_name := savings_goal_name r;
     savings_goal_target := savings_goal_target r |}.

Definition set_focus_minutes_today (v : Z) (r : t) : t :=
  {| id := id r; username := username r; email := email r;
     password_hash := password_hash r; total_focus_points := total_focus_points r;
     stars_earned := stars_earned r; energy_bank_balance := energy_bank_balance r;
     last_energy_collection_time := last_energy_collection_time r;
     focus_minutes_today := v; focus_tracking_date := focus_tracking_date r;
     account_created_at := account_created_at r;
     achievement_first_login := achievement_first_login r;
     achievement_first_focus := achievement_first_focus r;
     achievement_first_task := achievement_first_task r;
     achievement_first_note := achievement_first_note r;
     achievement_email_added := achievement_email_added r;
     savings_goal_name := savings_goal_name r;
     savings_goal_target := savings_goal_target r |}.

Definition set_focus_tracking_date (v : option Z) (r : t) : t :=
  {| id := id r; username := username r; email := email r;
     password_hash := password_hash r; total_focus_points := total_focus_points r;
     stars_earned := stars_earned r; energy_bank_balance := energy_bank_balance r;
     last_energy_collection_time := last_energy_collection_time r;
     focus_minutes_today := focus_minutes_today r; focus_tracking_date := v;
     account_created_at := account_created_at r;
     achievement_first_login := achievement_first_login r;
     achievement_first_focus := achievement_first_focus r;
     achievement_first_task := achievement_first_task r;
     achievement_first_note := achievement_first_note r;
     achievement_email_added := achievement_email_added r;
     savings_goal_name := savings_goal_name r;
     savings_goal_target := savings_goal_target r |}.

Definition set_achievement_first_login (v : bool) (r : t) : t :=
  {| id := id r; username := username r; email := email r;
     password_hash := password_hash r; total_focus_points := total_focus_points r;
     stars_earned := stars_earned r; energy_bank_balance := energy_bank_balance r;
     last_energy_collection_time := last_energy_collection_time r;
     focus_minutes_today := focus_minutes_today r;
     focus_tracking_date := focus_tracking_date r;
     account_created_at := account_created_at r; achievement_first_login := v;
     achievement_first_focus := achievement_first_focus r;
     achievement_first_task := achievement_first_task r;
     achievement_first_note := achievement_first_note r;
     achievement_email_added := achievement_email_added r;
     savings_goal_name := savings_goal_name r;
     savings_goal_target := savings_goal_target r |}.

Definition set_achievement_first_focus (v : bool) (r : t) : t :=
  {| id := id r; username := username r; email := email r;
     password_hash := password_hash r; total_focus_points := total_focus_points r;
     stars_earned := stars_earned r; energy_bank_balance := energy_bank_balance r;
     last_energy_collection_time := last_energy_collection_time r;
     focus_minutes_today := focus_minutes_today r;
     focus_tracking_date := focus_tracking_date r;
     account_created_at := account_created_at r;
     achievement_first_login := achievement_first_login r;
     achievement_first_focus := v;
     achievement_first_task := achievement_first_task r;
     achievement_first_note := achievement_first_note r;
     achievement_email_added := achievement_email_added r;
     savings_goal_name := savings_goal_name r;
     savings_goal_target := savings_goal_target r |}.

Definition set_achievement_first_task (v : bool) (r : t) : t :=
  {| id := id r; username := username r; email := email r;
     password_hash := password_hash r; total_focus_points := total_focus_points r;
     stars_earned := stars_earned r; energy_bank_balance := energy_bank_balance r;
     last_energy_collection_time := last_energy_collection_time r;
     focus_minutes_today := focus_minutes_today r;
     focus_tracking_date := focus_tracking_date r;
     account_created_at := account_created_at r;
     achievement_first_login := achievement_first_login r;
     achievement_first_focus := achievement_first_focus r;
     achievement_first_task := v;
     achievement_first_note := achievement_first_note r;
     achievement_email_added := achievement_email_added r;
     savings_goal_name := savings_goal_name r;
     savings_goal_target := savings_goal_target r |}.

Definition set_achievement_first_note (v : bool) (r : t) : t :=
  {| id := id r; username := username r; email := email r;
     password_hash := password_hash r; total_focus_points := total_focus_points r;
     stars_earned := stars_earned r; energy_bank_balance := energy_bank_balance r;
     last_energy_collection_time := last_energy_collection_time r;
     focus_minutes_today := focus_minutes_today r;
     focus_tracking_date := focus_tracking_date r;
     account_created_at := account_created_at r;
     achievement_first_login := achievement_first_login r;
     achievement_first_focus := achievement_first_focus r;
     achievement_first_task := achievement_first_task r;
     achievement_first_note := v;
     achievement_email_added := achievement_email_added r;
     savings_goal_name := savings_goal_name r;
     savings_goal_target := savings_goal_target r |}.

Definition set_achievement_email_added (v : bool) (r : t) : t :=
  {| id := id r; username := username r; email := email r;
     password_hash := password_hash r; total_focus_points := total_focus_points r;
     stars_earned := stars_earned r; energy_bank_balance := energy_bank_balance r;
     last_energy_collection_time := last_energy_collection_time r;
     focus_minutes_today := focus_minutes_today r;
     focus_tracking_date := focus_tracking_date r;
     account_created_at := account_created_at r;
     achievement_first_login := achievement_first_login r;
     achievement_first_focus := achievement_first_focus r;
     achievement_first_task := achievement_first_task r;
     achievement_first_note := achievement_first_note r;
     achievement_email_added := v; savings_goal_name := savings_goal_name r;
     savings_goal_target := savings_goal_target r |}.

Definition set_savings_goal_name (v : option string) (r : t) : t :=
  {| id := id r; username := username r; email := email r;
     password_hash := password_hash r; total_focus_points := total_focus_points r;
     stars_earned := stars_earned r; energy_bank_balance := energy_bank_balance r;
     last_energy_collection_time := last_energy_collection_time r;
     focus_minutes_today := focus_minutes_today r;
     focus_tracking_date := focus_tracking_date r;
     account_created_at := account_created_at r;
     achievement_first_login := achievement_first_login r;
     achievement_first_focus := achievement_first_focus r;
     achievement_first_task := achievement_first_task r;
     achievement_first_note := achievement_first_note r;
     achievement_email_added := achievement_email_added r; savings_goal_name := v;
     savings_goal_target := savings_goal_target r |}.

Definition set_savings_goal_target (v : option Qc) (r : t) : t :=
  {| id := id r; username := username r; email := email r;
     password_hash := password_hash r; total_focus_points := total_focus_points r;
     stars_earned := stars_earned r; energy_bank_balance := energy_bank_balance r;
     last_energy_collection_time := last_energy_collection_time r;
     focus_minutes_today := focus_minutes_today r;
     focus_tracking_date := focus_tracking_date r;
     account_created_at := account_created_at r;
     achievement_first_login := achievement_first_login r;
     achievement_first_focus := achievement_first_focus r;
     achievement_first_task := achievement_first_task r;
     achievement_first_note := achievement_first_note r;
     achievement_email_added := achievement_email_added r;
     savings_goal_name := savings_goal_name r; savings_goal_target := v |}.

End User.

Module Task.

(** A row of the [task] table. *)
Record t : Type := mk {
  id : Z;
  user_id : Z;
  task_title : string;
  start_date : Z;
  deadline_date : option Z;
  priority_level : string;
  is_completed : bool;
  task_created_at : Z
}.

Definition set_task_title (v : string) (r : t) : t :=
  {| id := id r; user_id := user_id r; task_title := v;
     start_date := start_date r; deadline_date := deadline_date r;
     priority_level := priority_level r; is_completed := is_completed r;
     task_created_at := task_created_at r |}.

Definition set_start_date (v : Z) (r : t) : t :=
  {| id := id r; user_id := user_id r; task_title := task_title r;
     start_date := v; deadline_date := deadline_date r;
     priority_level := priority_level r; is_completed := is_completed r;
     task_created_at := task_created_at r |}.

Definition set_deadline_date (v : option Z) (r : t) : t :=
  {| id := id r; user_id := user_id r; task_title := task_title r;
     start_date := start_date r; deadline_date := v;
     priority_level := priority_level r; is_completed := is_completed r;
     task_created_at := task_created_at r |}.

Definition set_priority_level (v : string) (r : t) : t :=
  {| id := id r; user_id := user_id r; task_title := task_title r;
     start_date := start_date r; deadline_date := deadline_date r;
     priority_level := v; is_completed := is_completed r;
     task_created_at := task_created_at r |}.

Definition set_is_completed (v : bool) (r : t) : t :=
  {| id := id r; user_id := user_id r; task_title := task_title r;
     start_date := start_date r; deadline_date := deadline_date r;
     priority_level := priority_level r; is_completed := v;
     task_created_at := task_created_at r |}.

End Task.

Module Note.

(** A row of the [note] table. *)
Record t : Type := mk {
  id : Z;
  user_id : Z;
  note_title : string;
  note_content : string;
  last_modified_at : Z
}.

Definition set_note_title (v : string) (r : t) : t :=
  {| id := id r; user_id := user_id r; note_title := v;
     note_content := note_content r; last_modified_at := last_modified_at r |}.

Definition set_note_content (v : string) (r : t) : t :=
  {| id := id r; user_id := user_id r; note_title := note_title r;
     note_content := v; last_modified_at := last_modified_at r |}.

Definition set_last_modified_at (v : Z) (r : t) : t :=
  {| id := id r; user_id := user_id r; note_title := note_title r;
     note_content := note_content r; last_modified_at := v |}.

End Note.

Module Transaction.

(** A row of the [transaction] table; amounts are exact rationals. *)
Record t : Type := mk {
  id : Z;
  user_id : Z;
  transaction_type : string;
  transaction_description : string;
  transaction_amount : Qc;
  transaction_category : string;
  transaction_date : Z
}.

End Transaction.

(** ** Stored state, request environment, responses *)

(** The four tables and the user id held by the session cookie. *)
Record State : Type := mkState {
  users : list User.t;
  tasks : list Task.t;
  notes : list Note.t;
  transactions : list Transaction.t;
  session_user : option Z
}.

Definition set_users (v : list User.t) (st : State) : State :=
  mkState v (tasks st) (notes st) (transactions st) (session_user st).
Definition set_tasks (v : list Task.t) (st : State) : State :=
  mkState (users st) v (notes st) (transactions st) (session_user st).
Definition set_notes (v : list Note.t) (st : State) : State :=
  mkState (users st) (tasks st) v (transactions st) (session_user st).
Definition set_transactions (v : list Transaction.t) (st : State) : State :=
  mkState (users st) (tasks st) (notes st) v (session_user st).
Definition set_session_user (v : option Z) (st : State) : State :=
  mkState (users st) (tasks st) (notes st) (transactions st) v.

(** What a request reads from outside the store: [datetime.utcnow()],
    [date.today()] and the salt the hashing library draws. *)
Record Env : Type := mkEnv {
  utcnow : Z;
  today : Z;
  salt : string
}.

Module Home.
(** The data bag of [home.html]. *)
Record t : Type := mk {
  active_tasks_count : Z;
  focus_minutes_today : Z;
  daily_focus_goal : Z;
  progress_percentage : Z;
  priority_message : string;
  total_notes_count : Z;
  current_balance : Qc;
  unlocked_count : Z;
  focus_points : Z
}.
End Home.

Module Focus.
(** The data bag of [focus.html]. *)
Record t : Type := mk {
  total_focus_points : Z;
  stars_earned : Z;
  energy_bank_balance : Z
}.
End Focus.

Module Budget.
(** The data bag of [budget.html]. *)
Record t : Type := mk {
  recent_transactions : list Transaction.t;
  total_income : Qc;
  total_expenses : Qc;
  current_balance : Qc;
  weekly_expenses : Qc;
  monthly_expenses : Qc;
  estimated_months_to_goal : option Qc
}.
End Budget.

(** A response.  Listings carry their rows in table order: the ORDER BY of
    the listing queries is not represented, and the calendar rows of the
    timetable, a projection of its incomplete tasks, are left out.
    [Unauthorized] is what [@login_required] answers to an anonymous
    request. *)
Inductive Response : Type :=
| Redirect (endpoint : string)
| Unauthorized
| RenderLanding
| RenderHome (v : Home.t)
| RenderTimetable (incomplete_tasks finished_tasks : list Task.t) (current_date : Z)
| RenderNotes (user_notes : list Note.t)
| RenderFocus (v : Focus.t)
| RenderAchievements (login focus task note email : bool) (unlocked_count : Z)
| RenderBudget (v : Budget.t)
| RenderSettings (n_tasks n_notes focus_points : Z)
| Jsonify (fields : list (string * pyval)).

(** A flashed message with its category. *)
Definition Flash : Type := (string * string)%type.

(** The outcome of a handler: the state it leaves, what it flashed and its
    response; or an unhandled exception, after which the store is as the
    request found it. *)
Inductive Outcome : Type :=
| Done (st : State) (flashes : list Flash) (resp : Response)
| Raised (exn : string).

Definition try {A : Type} (o : option A) (exn : string) (k : A -> Outcome) : Outcome :=
  match o with
  | Some a => k a
  | None => Raised exn
  end.

Notation "'let?' x ':=' o 'raising' e 'in' k" :=
  (try o e (fun x => k))
  (at level 10, x pattern, o at level 100, e at level 0, k at level 200).

(** ** Queries *)

Definition Z_count {A : Type} (l : list A) : Z := Z.of_nat (length l).

Definition opt_string_eqb (a b : option string) : bool :=
  match a, b with
  | Some x, Some y => String.eqb x y
  | None, None => true
  | _, _ => false
  end.

Definition opt_Z_eqb (a b : option Z) : bool :=
  match a, b with
  | Some x, Some y => x =? y
  | None, None => true
  | _, _ => false
  end.

(** [User.query.get(user_id)] *)
Definition load_user_by_id (uid : Z) (st : State) : option User.t :=
  find (fun u => User.id u =? uid) (users st).

(** [current_user], when a user is logged in. *)
Definition current_user (st : State) : option User.t :=
  match session_user st with
  | Some uid => load_user_by_id uid st
  | None => None
  end.

(** Flushing a modified row at commit. *)
Definition commit_user (u : User.t) (st : State) : State :=
  set_users (map (fun r => if User.id r =? User.id u then u else r) (users st)) st.
Definition commit_task (t : Task.t) (st : State) : State :=
  set_tasks (map (fun r => if Task.id r =? Task.id t then t else r) (tasks st)) st.
Definition commit_note (n : Note.t) (st : State) : State :=
  set_notes (map (fun r => if Note.id r =? Note.id n then n else r) (notes st)) st.

(** The key an inserted row gets: one more than the largest in the table. *)
Definition next_id (ids : list Z) : Z := 1 + fold_right Z.max 0 ids.

(** [lower(User.username) == name] and [lower(User.email) == name]; a NULL
    email matches nothing. *)
Definition username_is (name : string) (u : User.t) : bool :=
  String.eqb (Text.lower (User.username u)) name.
Definition email_is (name : string) (u : User.t) : bool :=
  match User.email u with
  | Some e => String.eqb (Text.lower e) name
  | None => false
  end.

(** [@login_required] *)
Definition login_required (st : State) (k : User.t -> Outcome) : Outcome :=
  match current_user st with
  | Some u => k u
  | None => Done st [] Unauthorized
  end.

(** [int(x)] of the exact quotient [n / d]: truncation toward zero. *)
Definition int_of_quotient (n d : Z) : Z := Z.quot n d.

Definition owned_by (u : User.t) (t : Task.t) : bool := Task.user_id t =? User.id u.
Definition note_owned_by (u : User.t) (n : Note.t) : bool := Note.user_id n =? User.id u.
Definition transaction_owned_by (u : User.t) (x : Transaction.t) : bool :=
  Transaction.user_id x =? User.id u.

(** [sum(transaction_amount)] over the user's rows of one type, [or 0]. *)
Definition sum_of_type (ty : string) (u : User.t) (st : State) : Qc :=
  Num.Qc_sum (map Transaction.transaction_amount
    (filter (fun x => transaction_owned_by u x && String.eqb (Transaction.transaction_type x) ty)
       (transactions st))).

(** The same sum over the expenses dated [since] or later. *)
Definition expenses_since (since : Z) (u : User.t) (st : State) : Qc :=
  Num.Qc_sum (map Transaction.transaction_amount
    (filter (fun x => transaction_owned_by u x
                      && String.eqb (Transaction.transaction_type x) "expense"
                      && (since <=? Transaction.transaction_date x))
       (transactions st))).

(** ** Sample data *)

Module Demo.

(** Stand-ins for the libraries, to run the handlers on concrete requests:
    a hash is the salt, a dollar sign and the password; dates do not parse;
    numbers are decimal integers. *)
Definition generate_password_hash (salt : string) (password : option string)
  : option string :=
  (fun p => salt ++ "$" ++ p) <$> password.
Definition check_password_hash (pwhash : string) (password : option string)
  : option bool :=
  (fun p => String.eqb pwhash ("s$" ++ p)) <$> password.
Definition strptime_date (s : string) : option Z := None.
Definition int_of_text (s : string) : option Z :=
  Z.of_int <$> NilZero.int_of_string s.
Definition float_of_text (s : string) : option Qc :=
  (fun z => Q2Qc (inject_Z z)) <$> int_of_text s.

(** Seventeen seconds after the epoch, on day 10. *)
Definition env : Env := {| utcnow := 17000000; today := 10; salt := "s" |}.

(** A user with three stars whose energy was last collected at the epoch
    and whose focus minutes were last counted on day 9. *)
Definition alice : User.t :=
  {| User.id := 1; User.username := "alice"; User.email := Some "alice@example.org";
     User.password_hash := "s$secret";
     User.total_focus_points := 0; User.stars_earned := 3;
     User.energy_bank_balance := 0; User.last_energy_collection_time := 0;
     User.focus_minutes_today := 25; User.focus_tracking_date := Some 9;
     User.account_created_at := 0;
     User.achievement_first_login := true; User.achievement_first_focus := false;
     User.achievement_first_task := true; User.achievement_first_note := false;
     User.achievement_email_added := true;
     User.savings_goal_name := Some "bike"; User.savings_goal_target := Some (Q2Qc 600) |}.

Definition essay : Task.t :=
  {| Task.id := 1; Task.user_id := 1; Task.task_title := "essay";
     Task.start_date := 10; Task.deadline_date := None;
     Task.priority_level := "high"; Task.is_completed := false;
     Task.task_created_at := 0 |}.

Definition laundry : Task.t :=
  {| Task.id := 2; Task.user_id := 1; Task.task_title := "laundry";
     Task.start_date := 10; Task.deadline_date := None;
     Task.priority_level := "low"; Task.is_completed := false;
     Task.task_created_at := 0 |}.

Definition salary : Transaction.t :=
  {| Transaction.id := 1; Transaction.user_id := 1;
     Transaction.transaction_type := "income";
     Transaction.transaction_description := "salary";
     Transaction.transaction_amount := Q2Qc 60;
     Transaction.transaction_category := "work";
     Transaction.transaction_date := 10 |}.

(** The store with [u] as its only user, logged in. *)
Definition store (u : User.t) : State :=
  {| users := [u]; tasks := [essay; laundry]; notes := [];
     transactions := [salary]; session_user := Some (User.id u) |}.

Definition form (fields : list (string * string)) : gmap string string :=
  list_to_map fields.

Definition json (fields : list (string * pyval)) : pyval :=
  PyDict (list_to_map fields).

End Demo.

(** A second account beside the sample user, with rows of its own. *)
Module Sample.

Definition bob : User.t :=
  {| User.id := 2; User.username := "bob"; User.email := None;
     User.password_hash := "s$hunter2";
     User.total_focus_points := 5; User.stars_earned := 0;
     User.energy_bank_balance := 0; User.last_energy_collection_time := 0;
     User.focus_minutes_today := 0; User.focus_tracking_date := None;
     User.account_created_at := 0;
     User.achievement_first_login := true; User.achievement_first_focus := false;
     User.achievement_first_task := true; User.achievement_first_note := true;
     User.achievement_email_added := false;
     User.savings_goal_name := None; User.savings_goal_target := None |}.

Definition report : Task.t :=
  {| Task.id := 3; Task.user_id := 2; Task.task_title := "report";
     Task.start_date := 9; Task.deadline_date := Some 12;
     Task.priority_level := "medium"; Task.is_completed := false;
     Task.task_created_at := 0 |}.

Definition shopping : Note.t :=
  {| Note.id := 1; Note.user_id := 1; Note.note_title := "shopping";
     Note.note_content := "milk"; Note.last_modified_at := 0 |}.

Definition diary : Note.t :=
  {| Note.id := 2; Note.user_id := 2; Note.note_title := "diary";
     Note.note_content := "rain"; Note.last_modified_at := 0 |}.

Definition expense (id user : Z) (amount : Z) (day : Z) : Transaction.t :=
  {| Transaction.id := id; Transaction.user_id := user;
     Transaction.transaction_type := "expense";
     Transaction.transaction_description := "bill";
     Transaction.transaction_amount := Q2Qc (inject_Z amount);
     Transaction.transaction_category := "home";
     Transaction.transaction_date := day |}.

(** Both users, the sample user logged in; her expenses are 20 on day 8 and
    15 on day -15, his is 7 on day 10. *)
Definition store : State :=
  {| users := [Demo.alice; bob];
     tasks := [Demo.essay; Demo.laundry; report];
     notes := [shopping; diary];
     transactions := [Demo.salary; expense 2 1 20 8; expense 3 1 15 (-15); expense 4 2 7 10];
     session_user := Some 1 |}.

(** Seven seconds after the epoch, on day 10. *)
Definition early : Env := {| utcnow := 7000000; today := 10; salt := "s" |}.

End Sample.

(** ** Route handlers *)

Section Handlers.

(** [werkzeug.security]: hashing under a salt and verification.  [None] is
    an exception of the library (a missing password field reaches it as
    Python's [None]). *)
Variable generate_password_hash : string -> option string -> option string.
Variable check_password_hash : string -> option string -> option bool.
(** [datetime.strptime(s, '%Y-%m-%d').date()] and [float(s)]; [None] is the
    [ValueError] of text that does not parse. *)
Variable strptime_date : string -> option Z.
Variable float_of_text : string -> option Qc.
(** The integer a text parameter is read as when the store compares it with
    an integer key; [None] when it is not one. *)
Variable int_of_text : string -> option Z.

Definition quote : string := String (ascii_of_nat 34) EmptyString.

(** *** Authentication *)

Definition show_landing_page (st : State) : Outcome :=
  match current_user st with
  | Some _ => Done st [] (Redirect "show_dashboard")
  | None => Done st [] RenderLanding
  end.

Definition handle_login (form : gmap string string) (st : State) : Outcome :=
  let login_identifier := Text.field_normalised form "email" in
  let password := form !! "password" in
  let found_user :=
    find (fun u => email_is login_identifier u || username_is login_identifier u) (users st) in
  let invalid :=
    Done st [("Invalid email/username or password", "error")] (Redirect "show_landing_page") in
  match found_user with
  | None => invalid
  | Some u =>
      let? ok := check_password_hash (User.password_hash u) password
        raising "check_password_hash" in
      if ok then
        let st := set_session_user (Some (User.id u)) st in
        if negb (User.achievement_first_login u) then
          Done (commit_user (User.set_achievement_first_login true u) st)
               [("Achievement unlocked: First Steps!", "success")]
               (Redirect "show_dashboard")
        else Done st [] (Redirect "show_dashboard")
      else invalid
  end.

Definition handle_registration (env : Env) (form : gmap string string) (st : State)
  : Outcome :=
  let username := Text.field_normalised form "username" in
  let email := Text.field_normalised form "email" in
  let password := form !! "password" in
  let confirm_password := form !! "confirm_password" in
  if negb (opt_string_eqb password confirm_password) then
    Done st [("Passwords do not match", "error")] (Redirect "show_landing_page")
  else if existsb (username_is username) (users st) then
    Done st [("Username already taken", "error")] (Redirect "show_landing_page")
  else if Text.nonempty email && existsb (email_is email) (users st) then
    Done st [("Email already registered", "error")] (Redirect "show_landing_page")
  else
    let? hash := generate_password_hash (salt env) password
      raising "generate_password_hash" in
    let new_user :=
      {| User.id := next_id (map User.id (users st));
         User.username := username;
         User.email := if Text.nonempty email then Some email else None;
         User.password_hash := hash;
         User.total_focus_points := 0;
         User.stars_earned := 0;
         User.energy_bank_balance := 0;
         User.last_energy_collection_time := utcnow env;
         User.focus_minutes_today := 0;
         User.focus_tracking_date := None;
         User.account_created_at := utcnow env;
         User.achievement_first_login := false;
         User.achievement_first_focus := false;
         User.achievement_first_task := false;
         User.achievement_first_note := false;
         User.achievement_email_added := Text.nonempty email;
         User.savings_goal_name := None;
         User.savings_goal_target := None |} in
    Done (set_users (users st ++ [new_user]) st)
         [("Account created! Sign in with " ++ quote ++ username ++ quote, "success")]
         (Redirect "show_landing_page").

Definition handle_forgot_password (st : State) : Outcome :=
  Done st [("Password reset link sent to your email", "success")]
       (Redirect "show_landing_page").

Definition handle_logout (st : State) : Outcome :=
  login_required st (fun _ =>
    Done (set_session_user None st) [] (Redirect "show_landing_page")).

(** *** Dashboard *)

(** The daily reset: the counter is valid only for the stored date. *)
Definition reset_if_new_day (today : Z) (u : User.t) : User.t :=
  if negb (opt_Z_eqb (User.focus_tracking_date u) (Some today)) then
    User.set_focus_tracking_date (Some today) (User.set_focus_minutes_today 0 u)
  else u.

(** [Task.query.filter_by(user_id=.., is_completed=False, priority_level=p).first()] *)
Definition first_open_task (p : string) (u : User.t) (st : State) : option Task.t :=
  find (fun t => owned_by u t && negb (Task.is_completed t)
                 && String.eqb (Task.priority_level t) p) (tasks st).

(** The goal in minutes with its message. *)
Definition daily_goal (u : User.t) (st : State) : Z * string :=
  match first_open_task "high" u st with
  | Some _ => (30, "High priority task - Focus 30 min")
  | None =>
    match first_open_task "medium" u st with
    | Some _ => (15, "Medium priority task - Focus 15 min")
    | None =>
      match first_open_task "low" u st with
      | Some _ => (10, "Low priority task - Focus 10 min")
      | None => (0, "No tasks today - You're all caught up!")
      end
    end
  end.

(** [min(100, int((minutes / goal) * 100))], or 100 without a goal. *)
Definition progress_of (minutes goal : Z) : Z :=
  if 0 <? goal then Z.min 100 (int_of_quotient (minutes * 100) goal) else 100.

Definition show_dashboard (env : Env) (st : State) : Outcome :=
  login_required st (fun u =>
    let u' := reset_if_new_day (today env) u in
    let st' :=
      if negb (opt_Z_eqb (User.focus_tracking_date u) (Some (today env)))
      then commit_user u' st else st in
    let active_tasks_count :=
      Z_count (filter (fun t => owned_by u' t && negb (Task.is_completed t)) (tasks st')) in
    let total_notes_count := Z_count (filter (note_owned_by u') (notes st')) in
    let '(daily_focus_goal, priority_message) := daily_goal u' st' in
    let progress_percentage := progress_of (User.focus_minutes_today u') daily_focus_goal in
    let total_income := sum_of_type "income" u' st' in
    let total_expenses := sum_of_type "expense" u' st' in
    let unlocked :=
      Z.b2z (User.achievement_first_login u') + Z.b2z (User.achievement_first_focus u')
      + Z.b2z (User.achievement_first_task u') + Z.b2z (User.achievement_first_note u')
      + Z.b2z (User.achievement_email_added u') in
    Done st' []
      (RenderHome
         {| Home.active_tasks_count := active_tasks_count;
            Home.focus_minutes_today := User.focus_minutes_today u';
            Home.daily_focus_goal := daily_focus_goal;
            Home.progress_percentage := progress_percentage;
            Home.priority_message := priority_message;
            Home.total_notes_count := total_notes_count;
            Home.current_balance := Num.py_round (total_income - total_expenses)%Qc 2;
            Home.unlocked_count := unlocked;
            Home.focus_points := User.total_focus_points u' |})).

(** *** Tasks *)

Definition show_tasks_page (env : Env) (st : State) : Outcome :=
  login_required st (fun u =>
    Done st []
      (RenderTimetable
         (filter (fun t => owned_by u t && negb (Task.is_completed t)) (tasks st))
         (filter (fun t => owned_by u t && Task.is_completed t) (tasks st))
         (today env))).

(** [strptime(s).date() if s else dflt]; the outer [None] is the [ValueError]. *)
Definition date_field (form : gmap string string) (key : string) (dflt : option Z)
  : option (option Z) :=
  match form !! key with
  | Some s =>
      if Text.nonempty s then
        match strptime_date s with
        | Some d => Some (Some d)
        | None => None
        end
      else Some dflt
  | None => Some dflt
  end.

Definition handle_add_task (env : Env) (form : gmap string string) (st : State)
  : Outcome :=
  login_required st (fun u =>
    let task_title := form !! "title" in
    let priority_level := default "medium" (form !! "priority") in
    let redirect_destination := default "timetable" (form !! "redirect") in
    let? start_date := date_field form "start_date" (Some (today env))
      raising "ValueError" in
    let? deadline_date := date_field form "deadline_date" None
      raising "ValueError" in
    let first := negb (User.achievement_first_task u) in
    let u' := if first then User.set_achievement_first_task true u else u in
    (* task_title is NOT NULL: the commit fails without a title *)
    let? title := task_title raising "IntegrityError" in
    let new_task :=
      {| Task.id := next_id (map Task.id (tasks st));
         Task.user_id := User.id u;
         Task.task_title := title;
         Task.start_date := default (today env) start_date;
         Task.deadline_date := deadline_date;
         Task.priority_level := priority_level;
         Task.is_completed := false;
         Task.task_created_at := utcnow env |} in
    Done (commit_user u' (set_tasks (tasks st ++ [new_task]) st))
         ((if first then [("Achievement unlocked: Task Starter!", "success")] else [])
          ++ [("Task added!", "success")])
         (Redirect (if String.eqb redirect_destination "home"
                    then "show_dashboard" else "show_tasks_page"))).

(** Does the text parameter denote the key [n]? *)
Definition id_matches (n : Z) (param : option string) : bool :=
  match param with
  | Some s => match int_of_text s with Some m => m =? n | None => false end
  | None => false
  end.

(** [Task.query.filter_by(id=task_id, user_id=current_user.id).first()] *)
Definition find_owned_task (task_id : option string) (u : User.t) (st : State)
  : option Task.t :=
  find (fun t => id_matches (Task.id t) task_id && owned_by u t) (tasks st).

Definition handle_update_task (env : Env) (form : gmap string string) (st : State)
  : Outcome :=
  login_required st (fun u =>
    match find_owned_task (form !! "task_id") u st with
    | Some found_task =>
        let? start_date := date_field form "start_date" (Some (today env))
          raising "ValueError" in
        let? deadline_date := date_field form "deadline_date" None
          raising "ValueError" in
        let? title := form !! "title" raising "IntegrityError" in
        let t :=
          Task.set_priority_level (default "medium" (form !! "priority"))
            (Task.set_deadline_date deadline_date
               (Task.set_start_date (default (today env) start_date)
                  (Task.set_task_title title found_task))) in
        Done (commit_task t st) [("Task updated!", "success")] (Redirect "show_tasks_page")
    | None => Done st [] (Redirect "show_tasks_page")
    end).

(** [{'high': 30, 'medium': 20, 'low': 10}.get(priority, 10)] *)
Definition points_for_priority (priority : string) : Z :=
  if String.eqb priority "high" then 30
  else if String.eqb priority "medium" then 20
  else if String.eqb priority "low" then 10
  else 10.

(** [f'+{points_earned} points earned!'] *)
Definition points_message (points_earned : Z) : string :=
  "+" ++ pretty points_earned ++ " points earned!".

Definition handle_toggle_task (args : gmap string string) (st : State) : Outcome :=
  login_required st (fun u =>
    match find_owned_task (args !! "id") u st with
    | Some found_task =>
        let was_completed := Task.is_completed found_task in
        let t := Task.set_is_completed (negb (Task.is_completed found_task)) found_task in
        if Task.is_completed t && negb was_completed then
          let points_earned := points_for_priority (Task.priority_level t) in
          let u' :=
            User.set_total_focus_points (User.total_focus_points u + points_earned) u in
          Done (commit_user u' (commit_task t st))
               [(points_message points_earned, "success")]
               (Redirect "show_tasks_page")
        else Done (commit_task t st) [] (Redirect "show_tasks_page")
    | None => Done st [] (Redirect "show_tasks_page")
    end).

Definition handle_delete_task (args : gmap string string) (st : State) : Outcome :=
  login_required st (fun u =>
    match find_owned_task (args !! "id") u st with
    | Some found_task =>
        Done (set_tasks (filter (fun r => negb (Task.id r =? Task.id found_task)) (tasks st)) st)
             [("Task deleted", "success")] (Redirect "show_tasks_page")
    | None => Done st [] (Redirect "show_tasks_page")
    end).

(** *** Notes *)

Definition show_notes_page (st : State) : Outcome :=
  login_required st (fun u =>
    Done st [] (RenderNotes (filter (note_owned_by u) (notes st)))).

Definition handle_add_note (env : Env) (form : gmap string string) (st : State)
  : Outcome :=
  login_required st (fun u =>
    let note_title := default EmptyString (form !! "title") in
    let note_content := default EmptyString (form !! "content") in
    let redirect_destination := default "mynotes" (form !! "redirect") in
    let new_note :=
      {| Note.id := next_id (map Note.id (notes st));
         Note.user_id := User.id u;
         Note.note_title := note_title;
         Note.note_content := note_content;
         Note.last_modified_at := utcnow env |} in
    let first := negb (User.achievement_first_note u) in
    let u' := if first then User.set_achievement_first_note true u else u in
    Done (commit_user u' (set_notes (notes st ++ [new_note]) st))
         ((if first then [("Achievement unlocked: Note Taker!", "success")] else [])
          ++ [("Note saved!", "success")])
         (Redirect (if String.eqb redirect_destination "home"
                    then "show_dashboard" else "show_notes_page"))).

Definition find_owned_note (note_id : option string) (u : User.t) (st : State)
  : option Note.t :=
  find (fun n => id_matches (Note.id n) note_id && note_owned_by u n) (notes st).

Definition handle_update_note (env : Env) (form : gmap string string) (st : State)
  : Outcome :=
  login_required st (fun u =>
    match find_owned_note (form !! "note_id") u st with
    | Some found_note =>
        let title := default EmptyString (form !! "title") in
        let content := default EmptyString (form !! "content") in
        let changed :=
          negb (String.eqb title (Note.note_title found_note)
                && String.eqb content (Note.note_content found_note)) in
        let n := Note.set_note_content content (Note.set_note_title title found_note) in
        (* onupdate: the timestamp is refreshed when the row is written *)
        let n := if changed then Note.set_last_modified_at (utcnow env) n else n in
        Done (commit_note n st) [("Note updated!", "success")] (Redirect "show_notes_page")
    | None => Done st [] (Redirect "show_notes_page")
    end).

Definition handle_delete_note (args : gmap string string) (st : State) : Outcome :=
  login_required st (fun u =>
    match find_owned_note (args !! "id") u st with
    | Some found_note =>
        Done (set_notes (filter (fun r => negb (Note.id r =? Note.id found_note)) (notes st)) st)
             [("Note deleted", "success")] (Redirect "show_notes_page")
    | None => Done st [] (Redirect "show_notes_page")
    end).

(** *** Focus timer *)

(** [int(seconds_since_last_collection / 5) * stars_earned]: one unit per
    star and full period of five seconds (5,000,000 microseconds). *)
Definition energy_accumulated (current_time : Z) (u : User.t) : Z :=
  int_of_quotient (current_time - User.last_energy_collection_time u) 5000000
  * User.stars_earned u.

Definition show_focus_page (env : Env) (st : State) : Outcome :=
  login_required st (fun u =>
    let current_time := utcnow env in
    let energy := energy_accumulated current_time u in
    let u' :=
      if 0 <? energy then
        User.set_last_energy_collection_time current_time
          (User.set_energy_bank_balance (User.energy_bank_balance u + energy) u)
      else u in
    Done (if 0 <? energy then commit_user u' st else st) []
      (RenderFocus
         {| Focus.total_focus_points := User.total_focus_points u';
            Focus.stars_earned := User.stars_earned u';
            Focus.energy_bank_balance := User.energy_bank_balance u' |})).

Definition handle_session_complete (env : Env) (body : pyval) (st : State) : Outcome :=
  login_required st (fun u =>
    let request_data := Py.or_empty_dict body in
    let? completed_minutes := Py.get request_data "minutes" (PyInt 1)
      raising "AttributeError" in
    let u := User.set_stars_earned (User.stars_earned u + 1) u in
    let u := User.set_total_focus_points (User.total_focus_points u + 10) u in
    let u := User.set_last_energy_collection_time (utcnow env) u in
    let u := reset_if_new_day (today env) u in
    let? minutes := Py.int_add (User.focus_minutes_today u) completed_minutes
      raising "TypeError" in
    let u := User.set_focus_minutes_today minutes u in
    let u :=
      if negb (User.achievement_first_focus u)
      then User.set_achievement_first_focus true u else u in
    Done (commit_user u st) []
      (Jsonify [("success", PyBool true);
                ("stars", PyInt (User.stars_earned u));
                ("focus_today", PyInt (User.focus_minutes_today u));
                ("points", PyInt (User.total_focus_points u))])).

Definition handle_add_focus_points (body : pyval) (st : State) : Outcome :=
  login_required st (fun u =>
    let? points_to_add := Py.get body "points" (PyInt 0) raising "AttributeError" in
    let? total := Py.int_add (User.total_focus_points u) points_to_add
      raising "TypeError" in
    let u := User.set_total_focus_points total u in
    let positive :=
      match Py.as_int points_to_add with Some z => 0 <? z | None => false end in
    let u :=
      if negb (User.achievement_first_focus u) && positive
      then User.set_achievement_first_focus true u else u in
    Done (commit_user u st) []
      (Jsonify [("success", PyBool true);
                ("total_points", PyInt (User.total_focus_points u))])).

(** *** Achievements *)

Definition show_achievements_page (st : State) : Outcome :=
  login_required st (fun u =>
    Done st []
      (RenderAchievements
         (User.achievement_first_login u) (User.achievement_first_focus u)
         (User.achievement_first_task u) (User.achievement_first_note u)
         (User.achievement_email_added u)
         (Z.b2z (User.achievement_first_login u) + Z.b2z (User.achievement_first_focus u)
          + Z.b2z (User.achievement_first_task u) + Z.b2z (User.achievement_first_note u)
          + Z.b2z (User.achievement_email_added u)))).

(** *** Budget *)

(** The estimate of [show_budget_page]: [None] is Python's [None]. *)
Definition estimated_months_to_goal
  (savings_goal_target : option Qc) (total_income total_expenses : Qc) : option Qc :=
  let current_balance := (total_income - total_expenses)%Qc in
  match savings_goal_target with
  | Some target =>
      if Num.Qc_nonzero target && Num.Qc_ltb (Q2Qc 0) current_balance then
        let monthly_savings_rate := ((total_income - total_expenses) / Q2Qc 12)%Qc in
        let remaining_amount := (target - current_balance)%Qc in
        if Num.Qc_leb target current_balance then Some (Q2Qc 0)
        else Some (Num.Qc_max (Q2Qc 0)
                     (Num.py_round
                        (remaining_amount / Num.Qc_max (Q2Qc 1) monthly_savings_rate)%Qc 1))
      else None
  | None => None
  end.

Definition budget_view (env : Env) (u : User.t) (st : State) : Budget.t :=
  let total_income := sum_of_type "income" u st in
  let total_expenses := sum_of_type "expense" u st in
  let weekly_expenses := expenses_since (today env - 7) u st in
  let monthly_expenses := expenses_since (today env - 30) u st in
  let current_balance := (total_income - total_expenses)%Qc in
  {| Budget.recent_transactions := filter (transaction_owned_by u) (transactions st);
     Budget.total_income := Num.py_round total_income 2;
     Budget.total_expenses := Num.py_round total_expenses 2;
     Budget.current_balance := Num.py_round current_balance 2;
     Budget.weekly_expenses := Num.py_round weekly_expenses 2;
     Budget.monthly_expenses := Num.py_round monthly_expenses 2;
     Budget.estimated_months_to_goal :=
       estimated_months_to_goal (User.savings_goal_target u) total_income total_expenses |}.

Definition show_budget_page (env : Env) (st : State) : Outcome :=
  login_required st (fun u => Done st [] (RenderBudget (budget_view env u st))).

Definition handle_add_transaction (env : Env) (form : gmap string string) (st : State)
  : Outcome :=
  login_required st (fun u =>
    let? amount_text := form !! "amount" raising "TypeError" in
    let? amount := float_of_text amount_text raising "ValueError" in
    (* the remaining columns are NOT NULL: the commit fails without them *)
    let? ty := form !! "type" raising "IntegrityError" in
    let? description := form !! "description" raising "IntegrityError" in
    let? category := form !! "category" raising "IntegrityError" in
    let new_transaction :=
      {| Transaction.id := next_id (map Transaction.id (transactions st));
         Transaction.user_id := User.id u;
         Transaction.transaction_type := ty;
         Transaction.transaction_description := description;
         Transaction.transaction_amount := amount;
         Transaction.transaction_category := category;
         Transaction.transaction_date := today env |} in
    Done (set_transactions (transactions st ++ [new_transaction]) st)
         [("Transaction added!", "success")] (Redirect "show_budget_page")).

Definition handle_set_goal (form : gmap string string) (st : State) : Outcome :=
  login_required st (fun u =>
    let? target_text := form !! "target" raising "TypeError" in
    let? target := float_of_text target_text raising "ValueError" in
    let u' :=
      User.set_savings_goal_target (Some target)
        (User.set_savings_goal_name (form !! "name") u) in
    Done (commit_user u' st) [("Goal saved!", "success")] (Redirect "show_budget_page")).

(** *** Settings *)

Definition show_settings_page (st : State) : Outcome :=
  login_required st (fun u =>
    Done st []
      (RenderSettings (Z_count (filter (owned_by u) (tasks st)))
                      (Z_count (filter (note_owned_by u) (notes st)))
                      (User.total_focus_points u))).

Definition handle_update_profile (form : gmap string string) (st : State) : Outcome :=
  login_required st (fun u =>
    let new_email := Text.field_normalised form "email" in
    if Text.nonempty new_email then
      if negb (String.eqb new_email (Text.lower (default EmptyString (User.email u)))) then
        if existsb (email_is new_email) (users st) then
          Done st [("Email already in use", "error")] (Redirect "show_settings_page")
        else
          Done (commit_user
                  (User.set_achievement_email_added true (User.set_email (Some new_email) u))
                  st)
               [("Profile updated!", "success")] (Redirect "show_settings_page")
      else Done st [("Profile updated!", "success")] (Redirect "show_settings_page")
    else
      Done (commit_user (User.set_email None u) st)
           [("Profile updated!", "success")] (Redirect "show_settings_page")).

Definition handle_change_password (env : Env) (form : gmap string string) (st : State)
  : Outcome :=
  login_required st (fun u =>
    let current_password := form !! "current_password" in
    let new_password := form !! "new_password" in
    let confirm_new_password := form !! "confirm_password" in
    let? ok := check_password_hash (User.password_hash u) current_password
      raising "check_password_hash" in
    if negb ok then
      Done st [("Current password is incorrect", "error")] (Redirect "show_settings_page")
    else if negb (opt_string_eqb new_password confirm_new_password) then
      Done st [("New passwords do not match", "error")] (Redirect "show_settings_page")
    else
      let? hash := generate_password_hash (salt env) new_password
        raising "generate_password_hash" in
      Done (commit_user (User.set_password_hash hash u) st)
           [("Password changed!", "success")] (Redirect "show_settings_page")).

Definition handle_delete_account (form : gmap string string) (st : State) : Outcome :=
  login_required st (fun u =>
    let? ok := check_password_hash (User.password_hash u) (form !! "password")
      raising "check_password_hash" in
    if negb ok then
      Done st [("Incorrect password", "error")] (Redirect "show_settings_page")
    else
      Done {| users := filter (fun r => negb (User.id r =? User.id u)) (users st);
              tasks := filter (fun t => negb (owned_by u t)) (tasks st);
              notes := filter (fun n => negb (note_owned_by u n)) (notes st);
              transactions := filter (fun x => negb (transaction_owned_by u x)) (transactions st);
              session_user := None |}
           [("Account deleted", "success")] (Redirect "show_landing_page")).

(** *** Routing *)

(** A request: the route with the form, the query arguments or the value
    of [request.get_json()] the handler reads ([PyNone] when the request
    carries no JSON body). *)
Inductive Request : Type :=
| GetLanding
| PostLogin (form : gmap string string)
| PostRegister (form : gmap string string)
| PostForgotPassword
| GetLogout
| GetHome
| GetTimetable
| PostTaskAdd (form : gmap string string)
| PostTaskUpdate (form : gmap string string)
| GetTaskToggle (args : gmap string string)
| GetTaskDelete (args : gmap string string)
| GetMyNotes
| PostNoteAdd (form : gmap string string)
| PostNoteUpdate (form : gmap string string)
| GetNoteDelete (args : gmap string string)
| GetFocus
| PostFocusCompleteSession (body : pyval)
| PostFocusAddPoints (body : pyval)
| GetAchievements
| GetBudget
| PostTransactionAdd (form : gmap string string)
| PostGoalSet (form : gmap string string)
| GetSettings
| PostSettingsProfile (form : gmap string string)
| PostSettingsPassword (form : gmap string string)
| PostSettingsDelete (form : gmap string string).

Definition dispatch (env : Env) (req : Request) (st : State) : Outcome :=
  match req with
  | GetLanding => show_landing_page st
  | PostLogin form => handle_login form st
  | PostRegister form => handle_registration env form st
  | PostForgotPassword => handle_forgot_password st
  | GetLogout => handle_logout st
  | GetHome => show_dashboard env st
  | GetTimetable => show_tasks_page env st
  | PostTaskAdd form => handle_add_task env form st
  | PostTaskUpdate form => handle_update_task env form st
  | GetTaskToggle args => handle_toggle_task args st
  | GetTaskDelete args => handle_delete_task args st
  | GetMyNotes => show_notes_page st
  | PostNoteAdd form => handle_add_note env form st
  | PostNoteUpdate form => handle_update_note env form st
  | GetNoteDelete args => handle_delete_note args st
  | GetFocus => show_focus_page env st
  | PostFocusCompleteSession body => handle_session_complete env body st
  | PostFocusAddPoints body => handle_add_focus_points body st
  | GetAchievements => show_achievements_page st
  | GetBudget => show_budget_page env st
  | PostTransactionAdd form => handle_add_transaction env form st
  | PostGoalSet form => handle_set_goal form st
  | GetSettings => show_settings_page st
  | PostSettingsProfile form => handle_update_profile form st
  | PostSettingsPassword form => handle_change_password env form st
  | PostSettingsDelete form => handle_delete_account form st
  end.

(** The state a request leaves: an exception leaves it as it was. *)
Definition state_after (o : Outcome) (st : State) : State :=
  match o with
  | Done st' _ _ => st'
  | Raised _ => st
  end.

Definition step (env : Env) (req : Request) (st : State) : State :=
  state_after (dispatch env req st) st.

(** A sequence of requests, each with its environment. *)
Fixpoint run (reqs : list (Env * Request)) (st : State) : State :=
  match reqs with
  | [] => st
  | (env, req) :: rest => run rest (step env req st)
  end.

(** *** Initialization *)

(** [create_demo_account]: adds the demo user unless a user named [artur]
    is stored.  [None] is an exception: of the hashing library, or the
    IntegrityError of the insert when a stored user already has the demo
    email (the column is UNIQUE). *)
Definition create_demo_account (env : Env) (st : State) : option State :=
  if existsb (fun u => String.eqb (User.username u) "artur") (users st) then Some st
  else
    match generate_password_hash (salt env) (Some "123") with
    | None => None
    | Some hash =>
        if existsb (fun u => opt_string_eqb (User.email u) (Some "artur@demo.com")) (users st)
        then None
        else
          let demo_user :=
            {| User.id := next_id (map User.id (users st));
               User.username := "artur";
               User.email := Some "artur@demo.com";
               User.password_hash := hash;
               User.total_focus_points := 0;
               User.stars_earned := 0;
               User.energy_bank_balance := 0;
               User.last_energy_collection_time := utcnow env;
               User.focus_minutes_today := 0;
               User.focus_tracking_date := None;
               User.account_created_at := utcnow env;
               User.achievement_first_login := true;
               User.achievement_first_focus := false;
               User.achievement_first_task := false;
               User.achievement_first_note := false;
               User.achievement_email_added := true;
               User.savings_goal_name := None;
               User.savings_goal_target := None |} in
          Some (set_users (users st ++ [demo_user]) st)
    end.

(** ** Properties *)

(** The primary key of the user table. *)
Definition primary_key (st : State) : Prop := NoDup (map User.id (users st)).

(** Every stored user is still stored afterwards, related by [R] to what
    it was. *)
Definition users_related (R : User.t -> User.t -> Prop) (st st' : State) : Prop :=
  forall uid u, load_user_by_id uid st = Some u ->
    exists u', load_user_by_id uid st' = Some u' /\ R u u'.


(** No achievement flag went from true to false. *)
Definition flags_kept (u u' : User.t) : Prop :=
  (User.achievement_first_login u = true -> User.achievement_first_login u' = true) /\
  (User.achievement_first_focus u = true -> User.achievement_first_focus u' = true) /\
  (User.achievement_first_task u = true -> User.achievement_first_task u' = true) /\
  (User.achievement_first_note u = true -> User.achievement_first_note u' = true) /\
  (User.achievement_email_added u = true -> User.achievement_email_added u' = true).

Definition is_account_deletion (req : Request) : bool :=
  match req with
  | PostSettingsDelete _ => true
  | _ => false
  end.

(** No request of the sequence is an account deletion. *)
Definition no_account_deletion (reqs : list (Env * Request)) : Prop :=
  Forall (fun er => is_account_deletion (snd er) = false) reqs.



(** The requests that fail validation: a registration with mismatched
    passwords, a taken username or a taken email; a password change with a
    wrong current password or mismatched new passwords. *)
Inductive validation_failure (st : State) : Request -> Prop :=
| register_password_mismatch form :
    form !! "password" <> form !! "confirm_password" ->
    validation_failure st (PostRegister form)
| register_username_taken form u :
    In u (users st) ->
    Text.lower (User.username u) = Text.field_normalised form "username" ->
    validation_failure st (PostRegister form)
| register_email_taken form u e :
    Text.field_normalised form "email" <> EmptyString ->
    In u (users st) -> User.email u = Some e ->
    Text.lower e = Text.field_normalised form "email" ->
    validation_failure st (PostRegister form)
| password_wrong_current form u :
    current_user st = Some u ->
    check_password_hash (User.password_hash u) (form !! "current_password") = Some false ->
    validation_failure st (PostSettingsPassword form)
| password_new_mismatch form u :
    current_user st = Some u ->
    check_password_hash (User.password_hash u) (form !! "current_password") = Some true ->
    form !! "new_password" <> form !! "confirm_password" ->
    validation_failure st (PostSettingsPassword form).


(** ** Further properties *)

(** The routes that are not behind [@login_required]. *)
Definition is_public (req : Request) : bool :=
  match req with
  | GetLanding | PostLogin _ | PostRegister _ | PostForgotPassword => true
  | _ => false
  end.

(** The pages that only show stored data. *)
Definition is_plain_view (req : Request) : bool :=
  match req with
  | GetLanding | GetTimetable | GetMyNotes | GetAchievements | GetBudget
  | GetSettings | PostForgotPassword => true
  | _ => false
  end.

(** No stored user answers to the login identifier. *)
Definition unknown_identifier (ident : string) (st : State) : Prop :=
  forall u, In u (users st) ->
    Text.lower (User.username u) <> ident
    /\ (forall e, User.email u = Some e -> Text.lower e <> ident).

(** The users a login with [ident] can be checked against: the query of
    [handle_login]. *)
Definition login_candidate (ident : string) (st : State) : option User.t :=
  find (fun u => email_is ident u || username_is ident u) (users st).

(** The primary keys of the four tables. *)
Definition keys_unique (st : State) : Prop :=
  NoDup (map User.id (users st)) /\ NoDup (map Task.id (tasks st))
  /\ NoDup (map Note.id (notes st)) /\ NoDup (map Transaction.id (transactions st)).

(** The rows of the three owned tables that belong to users other than
    [u]. *)
Definition tasks_of_others (u : User.t) (st : State) : list Task.t :=
  filter (fun t => Task.user_id t <> User.id u) (tasks st).
Definition notes_of_others (u : User.t) (st : State) : list Note.t :=
  filter (fun n => Note.user_id n <> User.id u) (notes st).
Definition transactions_of_others (u : User.t) (st : State) : list Transaction.t :=
  filter (fun x => Transaction.user_id x <> User.id u) (transactions st).

(** The key a text parameter denotes, if any. *)
Definition param_key (param : option string) : option Z :=
  match param with
  | Some s => int_of_text s
  | None => None
  end.

(** A date field the handler can read: absent, empty or text that parses. *)
Definition date_text_ok (form : gmap string string) (key : string) : Prop :=
  match form !! key with
  | Some s => s = EmptyString \/ is_Some (strptime_date s)
  | None => True
  end.


(** Two stored rows that share a username or an email, compared without
    case, are rows of one account. *)
Definition identities_unique (st : State) : Prop :=
  forall a b, In a (users st) -> In b (users st) ->
    Text.lower (User.username a) = Text.lower (User.username b)
    \/ (exists ea eb, User.email a = Some ea /\ User.email b = Some eb
                      /\ Text.lower ea = Text.lower eb) ->
    User.id a = User.id b.

(** Every row of [st'] is a row of [st] up to fields other than the id and
    the username, with the same email or none. *)
Definition identities_from (st st' : State) : Prop :=
  forall r', In r' (users st') ->
    exists r, In r (users st) /\ User.id r = User.id r'
              /\ User.username r = User.username r'
              /\ (User.email r' = User.email r \/ User.email r' = None).

(** ** Looking rows up after a commit *)

Lemma find_map_stable {A : Type} (p : A -> bool) (f : A -> A) (l : list A) :
  (forall x, p (f x) = p x) -> find p (map f l) = f <$> find p l.
Proof.
  intros Hp. induction l as [|x l IH]; simpl; [reflexivity|].
  rewrite Hp. destruct (p x); [reflexivity | exact IH].
Qed.

Lemma find_app_found {A : Type} (p : A -> bool) (l l' : list A) (x : A) :
  find p l = Some x -> find p (l ++ l') = Some x.
Proof.
  induction l as [|y l IH]; simpl; [discriminate|].
  destruct (p y); [trivial | exact IH].
Qed.

Lemma load_commit_user (u' : User.t) (uid : Z) (st : State) :
  load_user_by_id uid (commit_user u' st)
  = (fun r => if User.id r =? User.id u' then u' else r) <$> load_user_by_id uid st.
Proof.
  unfold load_user_by_id, commit_user. simpl.
  apply find_map_stable. intros x.
  destruct (Z.eqb_spec (User.id x) (User.id u')) as [E|E]; [now rewrite E | reflexivity].
Qed.

Lemma load_user_id (uid : Z) (st : State) (u : User.t) :
  load_user_by_id uid st = Some u -> User.id u = uid.
Proof.
  unfold load_user_by_id. intros H. apply find_some in H as [_ H]. lia.
Qed.

Lemma load_user_In (uid : Z) (st : State) (u : User.t) :
  load_user_by_id uid st = Some u -> In u (users st).
Proof. unfold load_user_by_id. intros H. now apply find_some in H as [H _]. Qed.

Lemma current_user_loaded (st : State) (u : User.t) :
  current_user st = Some u -> load_user_by_id (User.id u) st = Some u.
Proof.
  unfold current_user. destruct (session_user st) as [uid|]; [|discriminate].
  intros H. now rewrite (load_user_id _ _ _ H).
Qed.

(** The user a handler modified is the one the next request loads. *)
Lemma current_user_commit (u u' : User.t) (st st1 : State) :
  current_user st = Some u -> User.id u' = User.id u ->
  users st1 = users st -> session_user st1 = session_user st ->
  current_user (commit_user u' st1) = Some u'.
Proof.
  intros Hu Hid Hus Hs. pose proof (current_user_loaded _ _ Hu) as Hl.
  unfold current_user in *. simpl. rewrite Hs.
  destruct (session_user st) as [uid|]; [|discriminate].
  rewrite load_commit_user.
  assert (load_user_by_id uid st1 = Some u) as ->.
  { unfold load_user_by_id in *. now rewrite Hus. }
  simpl. rewrite Hid, Z.eqb_refl. reflexivity.
Qed.

Lemma primary_key_unique (st : State) (u r : User.t) :
  primary_key st -> In u (users st) -> In r (users st) -> User.id r = User.id u -> r = u.
Proof.
  unfold primary_key. induction (users st) as [|x l IH]; simpl; [contradiction|].
  intros Hnd [Hu|Hu] [Hr|Hr] Hid; inversion Hnd as [|? ? Hx Hl]; subst.
  - reflexivity.
  - exfalso. apply Hx. rewrite <- Hid. apply list_elem_of_In. now apply in_map.
  - exfalso. apply Hx. rewrite Hid. apply list_elem_of_In. now apply in_map.
  - now apply IH.
Qed.

Section Related.

Variable R : User.t -> User.t -> Prop.
Hypothesis R_refl : forall u, R u u.

Lemma related_same_users (st st' : State) :
  users st' = users st -> users_related R st st'.
Proof.
  intros E uid u Hu. exists u. split; [|apply R_refl].
  unfold load_user_by_id in *. now rewrite E.
Qed.

Lemma related_commit (st st1 : State) (u u' : User.t) :
  primary_key st -> In u (users st) -> User.id u' = User.id u -> R u u' ->
  users st1 = users st -> users_related R st (commit_user u' st1).
Proof.
  intros Hpk Hin Hid HR E uid r Hr. rewrite load_commit_user.
  assert (load_user_by_id uid st1 = Some r) as ->.
  { unfold load_user_by_id in *. now rewrite E. }
  simpl. destruct (Z.eqb_spec (User.id r) (User.id u')) as [Er|Er].
  - exists u'. split; [reflexivity|].
    rewrite (primary_key_unique st u r Hpk Hin (load_user_In _ _ _ Hr)); [exact HR | lia].
  - exists r. split; [reflexivity | apply R_refl].
Qed.

Lemma related_insert (st : State) (new_user : User.t) :
  users_related R st (set_users (users st ++ [new_user]) st).
Proof.
  intros uid u Hu. exists u. split; [|apply R_refl].
  unfold load_user_by_id in *. simpl. now apply find_app_found.
Qed.

End Related.

(** ** The cumulative counters *)



Ltac unfold_handlers :=
  unfold step, dispatch, show_landing_page, handle_login, handle_registration,
    handle_forgot_password, handle_logout, show_dashboard, show_tasks_page,
    handle_add_task, handle_update_task, handle_toggle_task, handle_delete_task,
    show_notes_page, handle_add_note, handle_update_note, handle_delete_note,
    show_focus_page, handle_session_complete, handle_add_focus_points,
    show_achievements_page, show_budget_page, handle_add_transaction,
    handle_set_goal, show_settings_page, handle_update_profile,
    handle_change_password, handle_delete_account, login_required, try,
    reset_if_new_day.

(** The row a handler modified is a row of the table. *)
Ltac stored_user :=
  first [ eapply load_user_In, current_user_loaded; eassumption
        | eapply find_some; eassumption ].



(** ** The achievement flags *)

Lemma flags_kept_refl (u : User.t) : flags_kept u u.
Proof. unfold flags_kept. tauto. Qed.

Lemma flags_kept_trans (u v w : User.t) : flags_kept u v -> flags_kept v w -> flags_kept u w.
Proof. unfold flags_kept. tauto. Qed.

Lemma step_flags (env : Env) (req : Request) (st : State) :
  primary_key st -> is_account_deletion req = false ->
  users_related flags_kept st (step env req st).
Proof.
  intros Hpk Hdel.
  destruct req; try discriminate Hdel; clear Hdel; unfold_handlers; simpl.
  all: repeat (case_match; simpl).
  all: try (apply related_same_users; [apply flags_kept_refl | reflexivity]).
  all: try (apply related_insert; apply flags_kept_refl).
  all: try (eapply related_commit;
       [ apply flags_kept_refl | exact Hpk | stored_user | reflexivity
       | unfold flags_kept; simpl; tauto
       | reflexivity ]).
Qed.

Lemma fold_max_bound (ids : list Z) (x : Z) : In x ids -> x <= fold_right Z.max 0 ids.
Proof.
  induction ids as [|y ids IH]; simpl; [contradiction|].
  intros [->|H]; [lia | specialize (IH H); lia].
Qed.

Lemma next_id_fresh (ids : list Z) : ~ In (next_id ids) ids.
Proof. unfold next_id. intros H. apply fold_max_bound in H. lia. Qed.

Lemma commit_user_ids (u' : User.t) (st : State) :
  map User.id (users (commit_user u' st)) = map User.id (users st).
Proof.
  unfold commit_user. simpl. rewrite map_map. apply map_ext. intros r.
  destruct (Z.eqb_spec (User.id r) (User.id u')); congruence.
Qed.

Lemma primary_key_commit (u' : User.t) (st st1 : State) :
  users st1 = users st -> primary_key st -> primary_key (commit_user u' st1).
Proof. unfold primary_key. intros E H. now rewrite commit_user_ids, E. Qed.

Lemma primary_key_same_users (st st' : State) :
  users st' = users st -> primary_key st -> primary_key st'.
Proof. unfold primary_key. now intros ->. Qed.

Lemma primary_key_insert (st : State) (new_user : User.t) :
  User.id new_user = next_id (map User.id (users st)) ->
  primary_key st -> primary_key (set_users (users st ++ [new_user]) st).
Proof.
  unfold primary_key. simpl. intros E H. rewrite map_app. simpl.
  apply NoDup_app. split; [exact H|]. split; [|apply NoDup_singleton].
  intros x Hx Hx'. apply list_elem_of_singleton in Hx'. subst x.
  rewrite E in Hx. apply list_elem_of_In in Hx. exact (next_id_fresh _ Hx).
Qed.

Lemma step_primary_key (env : Env) (req : Request) (st : State) :
  is_account_deletion req = false -> primary_key st -> primary_key (step env req st).
Proof.
  intros Hdel Hpk.
  destruct req; try discriminate Hdel; clear Hdel; unfold_handlers; simpl.
  all: repeat (case_match; simpl).
  all: first [ exact Hpk
             | apply (primary_key_commit _ st); [reflexivity | exact Hpk]
             | apply primary_key_insert; [reflexivity | exact Hpk]
             | apply (primary_key_same_users st); [reflexivity | exact Hpk] ].
Qed.

Lemma run_flags (reqs : list (Env * Request)) (st : State) :
  primary_key st -> no_account_deletion reqs ->
  users_related flags_kept st (run reqs st).
Proof.
  revert st. induction reqs as [|[env req] reqs IH]; intros st Hpk Hnd; simpl.
  - apply related_same_users; [apply flags_kept_refl | reflexivity].
  - apply Forall_cons in Hnd as [Hreq Hnd]. simpl in Hreq.
    intros uid u Hu.
    destruct (step_flags env req st Hpk Hreq uid u Hu) as (u1 & Hu1 & H1).
    destruct (IH (step env req st) (step_primary_key env req st Hreq Hpk) Hnd uid u1 Hu1)
      as (u2 & Hu2 & H2).
    exists u2. split; [exact Hu2 | exact (flags_kept_trans _ _ _ H1 H2)].
Qed.

(** C8.  Over any sequence of operations without an account deletion, an
    achievement flag of a stored user that is true stays true; and a profile
    update that clears the email leaves achievement_email_added as it was. *)
Theorem achievements_never_reset (reqs : list (Env * Request)) (st : State)
    (uid : Z) (u : User.t) :
  primary_key st ->
  no_account_deletion reqs ->
  load_user_by_id uid st = Some u ->
  (exists u', load_user_by_id uid (run reqs st) = Some u' /\ flags_kept u u')
  /\ (forall env form,
        current_user st = Some u ->
        Text.field_normalised form "email" = EmptyString ->
        exists u', current_user (step env (PostSettingsProfile form) st) = Some u'
                   /\ User.email u' = None
                   /\ User.achievement_email_added u' = User.achievement_email_added u).
Proof.
  intros Hpk Hnd Hu. split.
  - exact (run_flags reqs st Hpk Hnd uid u Hu).
  - intros env form Hcur Hempty.
    unfold step, dispatch, handle_update_profile, login_required.
    rewrite Hcur, Hempty. simpl.
    exists (User.set_email None u). split; [|split; reflexivity].
    now apply (current_user_commit u _ st st).
Qed.

(** ** Energy accrual *)

Lemma int_of_quotient_floor (n d : Z) : 0 <= n -> 0 < d -> int_of_quotient n d = n / d.
Proof. intros Hn Hd. unfold int_of_quotient. apply Z.quot_div_nonneg; lia. Qed.

(** C2.  With k stars and a non-negative time elapsed since the last
    collection, viewing the focus page computes floor(elapsed / 5 s) * k; a
    positive amount is added to the energy bank and the anchor is set to the
    current time; otherwise nothing is stored, in particular when k = 0. *)
Theorem energy_accrual (env : Env) (st : State) (u : User.t) :
  current_user st = Some u ->
  0 <= utcnow env - User.last_energy_collection_time u ->
  let accrued :=
    (utcnow env - User.last_energy_collection_time u) / 5000000 * User.stars_earned u in
  energy_accumulated (utcnow env) u = accrued
  /\ (0 < accrued ->
      exists u', current_user (step env GetFocus st) = Some u'
        /\ User.energy_bank_balance u' = User.energy_bank_balance u + accrued
        /\ User.last_energy_collection_time u' = utcnow env)
  /\ (accrued <= 0 -> step env GetFocus st = st)
  /\ (User.stars_earned u = 0 -> step env GetFocus st = st).
Proof.
  intros Hcur Hel accrued.
  assert (energy_accumulated (utcnow env) u = accrued) as He.
  { unfold energy_accumulated, accrued. now rewrite int_of_quotient_floor by lia. }
  assert (accrued <= 0 -> step env GetFocus st = st) as Hnone.
  { intros Hle. unfold step, dispatch, show_focus_page, login_required.
    rewrite Hcur, He. destruct (Z.ltb_spec 0 accrued); [lia | reflexivity]. }
  split; [exact He|]. split; [|split; [exact Hnone|]].
  - intros Hpos. unfold step, dispatch, show_focus_page, login_required.
    rewrite Hcur, He. destruct (Z.ltb_spec 0 accrued); [|lia]. simpl.
    eexists. split; [now apply (current_user_commit u _ st st)|]. split; reflexivity.
  - intros Hk. apply Hnone. unfold accrued. rewrite Hk. lia.
Qed.

(** ** Completing a focus session *)


(** What the handler does once the minutes it read are the integer [m]. *)
Lemma session_complete_effect (env : Env) (body v : pyval) (st : State) (u : User.t) (m : Z) :
  current_user st = Some u ->
  Py.get (Py.or_empty_dict body) "minutes" (PyInt 1) = Some v ->
  Py.as_int v = Some m ->
  exists u',
    handle_session_complete env body st
    = Done (commit_user u' st) []
        (Jsonify [("success", PyBool true);
                  ("stars", PyInt (User.stars_earned u'));
                  ("focus_today", PyInt (User.focus_minutes_today u'));
                  ("points", PyInt (User.total_focus_points u'))])
    /\ current_user (commit_user u' st) = Some u'
    /\ User.stars_earned u' = User.stars_earned u + 1
    /\ User.total_focus_points u' = User.total_focus_points u + 10
    /\ User.last_energy_collection_time u' = utcnow env
    /\ (User.focus_tracking_date u = Some (today env) ->
        User.focus_minutes_today u' = User.focus_minutes_today u + m)
    /\ (User.focus_tracking_date u <> Some (today env) ->
        User.focus_minutes_today u' = m)
    /\ User.focus_tracking_date u' = Some (today env)
    /\ User.achievement_first_focus u' = true
    /\ User.energy_bank_balance u' = User.energy_bank_balance u.
Proof.
  intros Hcur Hget Hint.
  unfold handle_session_complete, login_required, try, Py.int_add.
  rewrite Hcur, Hget, Hint. unfold reset_if_new_day. simpl.
  destruct (User.focus_tracking_date u) as [d|] eqn:Hd; simpl;
    [destruct (Z.eqb_spec d (today env)) as [->|Hne]; simpl|];
    destruct (User.achievement_first_focus u) eqn:Hf; simpl;
    match goal with |- context [commit_user ?x st] => exists x end;
    (split; [reflexivity|]; split; [now apply (current_user_commit u _ st st)|]);
    simpl; repeat split; try congruence; try lia.
Qed.




(** ** The daily reset *)

(** C6.  On a date after the stored focus_tracking_date, the dashboard shows
    and stores focus_minutes_today = 0 and a session completion stores just
    the reported minutes; both set focus_tracking_date to today, whatever
    the stored counter was. *)
Theorem daily_reset_before_use (env : Env) (st : State) (u : User.t) (d : Z) :
  current_user st = Some u ->
  User.focus_tracking_date u = Some d ->
  d < today env ->
  (exists st' v u',
      show_dashboard env st = Done st' [] (RenderHome v)
      /\ current_user st' = Some u'
      /\ User.focus_minutes_today u' = 0
      /\ User.focus_tracking_date u' = Some (today env)
      /\ Home.focus_minutes_today v = 0
      /\ Home.progress_percentage v = progress_of 0 (Home.daily_focus_goal v))
  /\ (forall body m,
        Py.get (Py.or_empty_dict body) "minutes" (PyInt 1) = Some (PyInt m) ->
        exists st' resp u',
          handle_session_complete env body st = Done st' [] resp
          /\ current_user st' = Some u'
          /\ User.focus_minutes_today u' = m
          /\ User.focus_tracking_date u' = Some (today env)).
Proof.
  intros Hcur Hd Hlt. split.
  - unfold show_dashboard, login_required, reset_if_new_day. rewrite Hcur, Hd. simpl.
    destruct (Z.eqb_spec d (today env)) as [E|_]; [lia|]. simpl.
    match goal with |- context [daily_goal ?x ?y] => destruct (daily_goal x y) as [goal msg] end.
    eexists _, _, _. split; [reflexivity|].
    split; [now apply (current_user_commit u _ st st)|]. repeat split.
  - intros body m Hget.
    destruct (session_complete_effect env body (PyInt m) st u m Hcur Hget eq_refl)
      as (u' & Hrun & Hcur' & _ & _ & _ & _ & Hnew & Hdate & _).
    eexists (commit_user u' st), _, u'. repeat split; try eassumption.
    apply Hnew. rewrite Hd. intros [= E]. lia.
Qed.

(** ** Toggling a task *)

(** The first match survives a commit that rewrites rows into the row that
    was found. *)
Lemma find_map_first {A : Type} (p : A -> bool) (f : A -> A) (l : list A) (t : A) :
  (forall x, p x = true -> p (f x) = true) ->
  (forall x, p x = false -> p (f x) = true -> f x = f t) ->
  find p l = Some t -> find p (map f l) = Some (f t).
Proof.
  intros Hkeep Hnew. induction l as [|x l IH]; simpl; [discriminate|].
  destruct (p x) eqn:Hx.
  - intros [= ->]. now rewrite (Hkeep _ Hx).
  - intros H. destruct (p (f x)) eqn:Hfx; [now rewrite (Hnew _ Hx Hfx) | now apply IH].
Qed.

Lemma find_owned_task_id (param : option string) (u u' : User.t) (st : State) :
  User.id u' = User.id u -> find_owned_task param u' st = find_owned_task param u st.
Proof. intros E. unfold find_owned_task, owned_by. now rewrite E. Qed.

Lemma find_owned_task_commit (param : option string) (u : User.t) (st : State)
    (t t' : Task.t) :
  find_owned_task param u st = Some t ->
  Task.id t' = Task.id t -> Task.user_id t' = Task.user_id t ->
  find_owned_task param u (commit_task t' st) = Some t'.
Proof.
  intros Hfind Hid Huid. pose proof (find_some _ _ Hfind) as [_ Hp].
  unfold find_owned_task, commit_task in *. simpl.
  rewrite (find_map_first _ (fun r => if Task.id r =? Task.id t' then t' else r) _ t).
  - now rewrite Hid, Z.eqb_refl.
  - intros x Hx. destruct (Z.eqb_spec (Task.id x) (Task.id t')); [|exact Hx].
    unfold owned_by in *. now rewrite Hid, Huid.
  - intros x Hx. rewrite Hid, Z.eqb_refl.
    destruct (Z.eqb_spec (Task.id x) (Task.id t)); [reflexivity | congruence].
  - exact Hfind.
Qed.

(** One toggle of the task the request names. *)
Lemma toggle_effect (env : Env) (args : gmap string string) (st : State)
    (u : User.t) (t : Task.t) :
  current_user st = Some u ->
  find_owned_task (args !! "id") u st = Some t ->
  exists u',
    current_user (step env (GetTaskToggle args) st) = Some u'
    /\ User.id u' = User.id u
    /\ find_owned_task (args !! "id") u (step env (GetTaskToggle args) st)
       = Some (Task.set_is_completed (negb (Task.is_completed t)) t)
    /\ User.total_focus_points u'
       = User.total_focus_points u
         + (if Task.is_completed t then 0 else points_for_priority (Task.priority_level t)).
Proof.
  intros Hcur Hfind. unfold step, dispatch, handle_toggle_task, login_required.
  rewrite Hcur, Hfind. simpl.
  destruct (Task.is_completed t) eqn:Hc; simpl.
  - exists u. split; [|split; [reflexivity|split]].
    + unfold current_user in *. exact Hcur.
    + now apply (find_owned_task_commit _ _ _ t).
    + lia.
  - eexists. split; [|split; [|split]].
    + now apply (current_user_commit u _ st).
    + reflexivity.
    + now apply (find_owned_task_commit _ _ _ t).
    + reflexivity.
Qed.

(** C4.  Toggling an incomplete owned task completes it and adds 30, 20 or
    10 points for priority high, medium or low, and 10 for any other
    priority; toggling a complete one makes it incomplete and leaves the
    points as they are; so three toggles of an incomplete high-priority task
    add 60. *)
Theorem toggle_awards_by_priority (env : Env) (args : gmap string string) (st : State)
    (u : User.t) (t : Task.t) :
  current_user st = Some u ->
  find_owned_task (args !! "id") u st = Some t ->
  let toggle := step env (GetTaskToggle args) in
  (exists u',
      current_user (toggle st) = Some u'
      /\ find_owned_task (args !! "id") u (toggle st)
         = Some (Task.set_is_completed (negb (Task.is_completed t)) t)
      /\ (Task.is_completed t = false ->
          User.total_focus_points u'
          = User.total_focus_points u + points_for_priority (Task.priority_level t))
      /\ (Task.is_completed t = true ->
          User.total_focus_points u' = User.total_focus_points u))
  /\ points_for_priority "high" = 30
  /\ points_for_priority "medium" = 20
  /\ points_for_priority "low" = 10
  /\ (forall p, p <> "high" -> p <> "medium" -> p <> "low" -> points_for_priority p = 10)
  /\ (Task.is_completed t = false -> Task.priority_level t = "high" ->
      exists u3,
        current_user (toggle (toggle (toggle st))) = Some u3
        /\ find_owned_task (args !! "id") u (toggle (toggle (toggle st)))
           = Some (Task.set_is_completed true t)
        /\ User.total_focus_points u3 = User.total_focus_points u + 60).
Proof.
  intros Hcur Hfind toggle. split; [|split; [|split; [|split; [|split]]]];
    try reflexivity.
  - destruct (toggle_effect env args st u t Hcur Hfind) as (u' & Hc' & _ & Hf' & Hp').
    exists u'. split; [exact Hc'|]. split; [exact Hf'|].
    split; intros Hd; rewrite Hd in Hp'; lia.
  - intros p Hh Hm Hl. unfold points_for_priority.
    destruct (String.eqb_spec p "high"); [contradiction|].
    destruct (String.eqb_spec p "medium"); [contradiction|]. now destruct (String.eqb p "low").
  - intros Hopen Hhigh.
    destruct (toggle_effect env args st u t Hcur Hfind) as (u1 & Hc1 & Hi1 & Hf1 & Hp1).
    rewrite <- (find_owned_task_id _ u u1) in Hf1 by exact Hi1.
    destruct (toggle_effect env args _ u1 _ Hc1 Hf1) as (u2 & Hc2 & Hi2 & Hf2 & Hp2).
    rewrite <- (find_owned_task_id _ u1 u2) in Hf2 by exact Hi2.
    destruct (toggle_effect env args _ u2 _ Hc2 Hf2) as (u3 & Hc3 & Hi3 & Hf3 & Hp3).
    exists u3. split; [exact Hc3|]. split.
    + unfold toggle. rewrite <- (find_owned_task_id _ u u2) by congruence.
      unfold toggle. rewrite Hf3. simpl. rewrite Hopen. reflexivity.
    + simpl in Hp1, Hp2, Hp3. rewrite Hopen in Hp1, Hp2, Hp3. simpl in Hp1, Hp2, Hp3.
      rewrite Hhigh in Hp1, Hp3. change (points_for_priority "high") with 30 in *. lia.
Qed.

(** ** The daily goal and the progress bar *)






(** ** The savings goal estimate *)








(** ** Validation failures *)

Lemma opt_string_eqb_neq (a b : option string) : a <> b -> opt_string_eqb a b = false.
Proof.
  destruct a as [x|], b as [y|]; simpl; intros H; try reflexivity; try congruence.
  destruct (String.eqb_spec x y); congruence.
Qed.

Lemma nonempty_neq (s : string) : s <> EmptyString -> Text.nonempty s = true.
Proof. destruct s; [congruence | reflexivity]. Qed.

(** C9.  A request that fails validation (registration with mismatched
    passwords or a taken username or email; a password change with a wrong
    current password or mismatched new passwords) ends with one error
    message and the stored state exactly as it was. *)
Theorem validation_failure_mutates_nothing (env : Env) (req : Request) (st : State) :
  validation_failure st req ->
  exists msg endpoint,
    dispatch env req st = Done st [(msg, "error")] (Redirect endpoint)
    /\ step env req st = st.
Proof.
  intros Hfail. unfold step.
  destruct Hfail as [form Hneq | form u Hin Hname | form u e Hne Hin He Hmail
                     | form u Hcur Hcheck | form u Hcur Hcheck Hneq];
    simpl.
  - unfold handle_registration. rewrite (opt_string_eqb_neq _ _ Hneq). simpl.
    eexists _, _. split; reflexivity.
  - unfold handle_registration.
    destruct (negb (opt_string_eqb _ _)); [eexists _, _; split; reflexivity|].
    assert (existsb (username_is (Text.field_normalised form "username")) (users st) = true)
      as ->.
    { apply existsb_exists. exists u. split; [exact Hin|].
      unfold username_is. rewrite Hname. apply String.eqb_refl. }
    eexists _, _. split; reflexivity.
  - unfold handle_registration.
    destruct (negb (opt_string_eqb _ _)); [eexists _, _; split; reflexivity|].
    destruct (existsb (username_is _) _); [eexists _, _; split; reflexivity|].
    rewrite (nonempty_neq _ Hne).
    assert (existsb (email_is (Text.field_normalised form "email")) (users st) = true)
      as ->.
    { apply existsb_exists. exists u. split; [exact Hin|].
      unfold email_is. rewrite He, Hmail. apply String.eqb_refl. }
    eexists _, _. split; reflexivity.
  - unfold handle_change_password, login_required, try. rewrite Hcur, Hcheck. simpl.
    eexists _, _. split; reflexivity.
  - unfold handle_change_password, login_required, try. rewrite Hcur, Hcheck. simpl.
    rewrite (opt_string_eqb_neq _ _ Hneq). simpl.
    eexists _, _. split; reflexivity.
Qed.

(** ** Requests without a login, and pages that only show *)

Lemma anonymous_refused (env : Env) (req : Request) (st : State) :
  current_user st = None -> is_public req = false ->
  dispatch env req st = Done st [] Unauthorized.
Proof.
  intros Hcur Hreq.
  destruct req; try discriminate Hreq; simpl; unfold_handlers; now rewrite Hcur.
Qed.

(** X1.  A protected route answers an anonymous request with the refusal
    of the login manager and stores nothing, whatever the request carries;
    after a logout every protected route does so. *)
Theorem protected_routes_need_login (env env' : Env) (req : Request) (st : State) :
  is_public req = false ->
  (current_user st = None ->
   exists flashes, dispatch env req st = Done st flashes Unauthorized)
  /\ exists flashes,
       dispatch env req (step env' GetLogout st)
       = Done (step env' GetLogout st) flashes Unauthorized.
Proof.
  intros Hreq. split; [intros Hcur; eexists; now apply anonymous_refused|].
  eexists. apply anonymous_refused; [|exact Hreq].
  unfold step, dispatch, handle_logout, login_required.
  destruct (current_user st) as [u|] eqn:Hcur; simpl; [reflexivity | exact Hcur].
Qed.

(** X2.  The landing, timetable, notes, achievements, budget and settings
    pages and the password reset placeholder leave the store exactly as it
    is, whoever asks. *)
Theorem plain_views_store_nothing (env : Env) (req : Request) (st : State) :
  is_plain_view req = true -> step env req st = st.
Proof.
  intros Hreq. destruct req; try discriminate Hreq; unfold_handlers; simpl;
    now destruct (current_user st).
Qed.

Lemma dashboard_state (env : Env) (st : State) (u : User.t) :
  current_user st = Some u ->
  step env GetHome st
  = if negb (opt_Z_eqb (User.focus_tracking_date u) (Some (today env)))
    then commit_user
           (User.set_focus_tracking_date (Some (today env))
              (User.set_focus_minutes_today 0 u)) st
    else st.
Proof.
  intros Hcur. unfold step, dispatch, show_dashboard, login_required, reset_if_new_day.
  rewrite Hcur. destruct (negb _); now destruct (daily_goal _ _).
Qed.

Lemma focus_state (env : Env) (st : State) (u : User.t) :
  current_user st = Some u ->
  step env GetFocus st
  = if 0 <? energy_accumulated (utcnow env) u
    then commit_user
           (User.set_last_energy_collection_time (utcnow env)
              (User.set_energy_bank_balance
                 (User.energy_bank_balance u + energy_accumulated (utcnow env) u) u)) st
    else st.
Proof.
  intros Hcur. unfold step, dispatch, show_focus_page, login_required.
  rewrite Hcur. now destruct (0 <? _).
Qed.

Lemma anonymous_step (env : Env) (req : Request) (st : State) :
  current_user st = None -> is_public req = false -> step env req st = st.
Proof. intros Hcur Hreq. unfold step. now rewrite anonymous_refused. Qed.

(** X3.  Viewing the dashboard or the focus page a second time at the same
    instant stores nothing further: the daily reset and the energy
    collection are idempotent. *)
Theorem repeated_view_is_idempotent (env : Env) (st : State) :
  step env GetHome (step env GetHome st) = step env GetHome st
  /\ step env GetFocus (step env GetFocus st) = step env GetFocus st.
Proof.
  destruct (current_user st) as [u|] eqn:Hcur.
  2:{ rewrite !(anonymous_step env _ st Hcur) by reflexivity. split; reflexivity. }
  split.
  - rewrite (dashboard_state env st u Hcur).
    destruct (negb (opt_Z_eqb (User.focus_tracking_date u) (Some (today env)))) eqn:Hnew.
    + erewrite dashboard_state
        by (apply (current_user_commit u _ st st Hcur); reflexivity).
      simpl. now rewrite Z.eqb_refl.
    + now rewrite (dashboard_state env st u Hcur), Hnew.
  - rewrite (focus_state env st u Hcur).
    destruct (0 <? energy_accumulated (utcnow env) u) eqn:Hpos.
    + erewrite focus_state
        by (apply (current_user_commit u _ st st Hcur); reflexivity).
      unfold energy_accumulated at 1. simpl. now rewrite Z.sub_diag.
    + now rewrite (focus_state env st u Hcur), Hpos.
Qed.

Lemma unknown_identifier_no_candidate (ident : string) (st : State) :
  unknown_identifier ident st -> login_candidate ident st = None.
Proof.
  intros Hunk. unfold login_candidate.
  destruct (find _ (users st)) as [u|] eqn:Hfind; [|reflexivity].
  apply find_some in Hfind as [Hin Hu]. destruct (Hunk u Hin) as [Hname Hmail].
  unfold email_is, username_is in Hu.
  apply orb_prop in Hu as [Hu|Hu].
  - destruct (User.email u) as [e|]; [|discriminate].
    apply String.eqb_eq in Hu. now destruct (Hmail e eq_refl).
  - apply String.eqb_eq in Hu. contradiction.
Qed.

(** X4.  A login fails the same way whether no stored user answers to the
    identifier or the password of the one who does is rejected: the store
    and the session stay as they are and the message is the same. *)
Theorem failed_login_stores_nothing (env : Env) (form : gmap string string) (st : State) :
  unknown_identifier (Text.field_normalised form "email") st
  \/ (exists u, login_candidate (Text.field_normalised form "email") st = Some u
                /\ check_password_hash (User.password_hash u) (form !! "password")
                   = Some false) ->
  dispatch env (PostLogin form) st
  = Done st [("Invalid email/username or password", "error")]
      (Redirect "show_landing_page").
Proof.
  intros [Hunk | (u & Hcand & Hcheck)]; simpl; unfold handle_login.
  - apply unknown_identifier_no_candidate in Hunk. unfold login_candidate in Hunk.
    now rewrite Hunk.
  - unfold login_candidate in Hcand. rewrite Hcand. unfold try. now rewrite Hcheck.
Qed.

(** ** Keys *)

Section Keyed.

Context {A : Type} (key : A -> Z).

Lemma key_unique (l : list A) (a b : A) :
  NoDup (map key l) -> In a l -> In b l -> key a = key b -> a = b.
Proof.
  induction l as [|x l IH]; simpl; [contradiction|].
  intros Hnd [Ha|Ha] [Hb|Hb] Hk; inversion Hnd as [|? ? Hx Hl]; subst.
  - reflexivity.
  - exfalso. apply Hx. rewrite Hk. apply list_elem_of_In. now apply in_map.
  - exfalso. apply Hx. rewrite <- Hk. apply list_elem_of_In. now apply in_map.
  - now apply IH.
Qed.

Lemma map_key_replace (k : Z) (t : A) (l : list A) :
  key t = k -> map key (map (fun r => if key r =? k then t else r) l) = map key l.
Proof.
  intros E. rewrite map_map. apply map_ext. intros r.
  destruct (Z.eqb_spec (key r) k); congruence.
Qed.

Lemma NoDup_key_insert (l : list A) (x : A) :
  key x = next_id (map key l) -> NoDup (map key l) -> NoDup (map key (l ++ [x])).
Proof.
  intros E H. rewrite map_app. simpl.
  apply NoDup_app. split; [exact H|]. split; [|apply NoDup_singleton].
  intros k Hk Hk'. apply list_elem_of_singleton in Hk'. subst k.
  rewrite E in Hk. apply list_elem_of_In in Hk. exact (next_id_fresh _ Hk).
Qed.

Lemma NoDup_key_filter (P : A -> Prop) `{forall x, Decision (P x)} (l : list A) :
  NoDup (map key l) -> NoDup (map key (filter P l)).
Proof.
  induction l as [|x l IH]; simpl; [trivial|].
  intros Hnd. inversion Hnd as [|? ? Hx Hl]; subst.
  rewrite filter_cons. destruct (decide (P x)); [|now apply IH].
  simpl. constructor; [|now apply IH].
  intros Hin. apply Hx. apply list_elem_of_In in Hin. apply in_map_iff in Hin
    as (y & Hy & Hin). apply list_elem_of_In. rewrite <- Hy. apply in_map.
  apply list_elem_of_In. apply list_elem_of_In in Hin.
  now apply list_elem_of_filter in Hin as [_ Hin].
Qed.

(** Replacing the row found under a key by a row with that key touches no
    other row. *)
Lemma replace_unique_key (l : list A) (t t' : A) (r : A) :
  NoDup (map key l) -> In t l -> key t' = key t -> In r l -> r <> t ->
  (if key r =? key t' then t' else r) = r.
Proof.
  intros Hnd Ht Hk Hr Hne. destruct (Z.eqb_spec (key r) (key t')) as [E|]; [|reflexivity].
  exfalso. apply Hne. apply (key_unique l); [assumption..|congruence].
Qed.

(** Rewriting the row found under a key into a row that [P] rejects as
    well does not change what [P] selects. *)
Lemma filter_replace (P : A -> Prop) `{forall x, Decision (P x)} (l : list A)
    (k : Z) (t t' : A) :
  NoDup (map key l) -> In t l -> key t = k -> ~ P t -> ~ P t' ->
  filter P (map (fun r => if key r =? k then t' else r) l) = filter P l.
Proof.
  intros Hnd Ht Hk Hnt Hnt'.
  assert (forall l0, (forall r, In r l0 -> In r l) ->
            filter P (map (fun r => if key r =? k then t' else r) l0) = filter P l0) as Hsub.
  { induction l0 as [|r l0 IH]; intros Hin; simpl; [reflexivity|].
    rewrite !filter_cons, IH by (intros; apply Hin; now right).
    destruct (Z.eqb_spec (key r) k) as [E|E]; [|reflexivity].
    assert (r = t) as -> by (apply (key_unique l); [auto|apply Hin; now left|auto|congruence]).
    destruct (decide (P t')); [contradiction|]. now destruct (decide (P t)). }
  apply Hsub. auto.
Qed.

(** Deleting the row found under a key that [P] rejects does not change
    what [P] selects. *)
Lemma filter_delete (P : A -> Prop) `{forall x, Decision (P x)} (l : list A) (t : A) :
  NoDup (map key l) -> In t l -> ~ P t ->
  filter P (filter (fun r => negb (key r =? key t)) l) = filter P l.
Proof.
  intros Hnd Ht Hnt.
  assert (forall l0, (forall r, In r l0 -> In r l) ->
            filter P (filter (fun r => negb (key r =? key t)) l0) = filter P l0) as Hsub.
  { induction l0 as [|r l0 IH]; intros Hin; [reflexivity|].
    specialize (IH (fun x Hx => Hin x (or_intror Hx))).
    rewrite (filter_cons _ r l0), (filter_cons P r l0).
    destruct (Z.eqb_spec (key r) (key t)) as [E|E]; simpl.
    - assert (r = t) as -> by (apply (key_unique l); [auto|apply Hin; now left|auto..]).
      destruct (decide (Is_true false)) as [[]|]. rewrite IH.
      now destruct (decide (P t)).
    - destruct (decide (Is_true true)) as [_|N]; [|now destruct N].
      now rewrite filter_cons, IH. }
  apply Hsub. auto.
Qed.

End Keyed.

Lemma filter_insert_rejected {A : Type} (P : A -> Prop) `{forall x, Decision (P x)}
    (l : list A) (x : A) :
  ~ P x -> filter P (l ++ [x])%list = filter P l.
Proof.
  intros Hx. rewrite filter_app, (filter_cons P x []).
  destruct (decide (P x)); [contradiction|]. apply app_nil_r.
Qed.

Lemma filter_filter_implied {A : Type} (P Q : A -> Prop) `{forall x, Decision (P x)}
    `{forall x, Decision (Q x)} (l : list A) :
  (forall x, P x -> Q x) -> filter P (filter Q l) = filter P l.
Proof.
  intros Himp. induction l as [|x l IH]; [reflexivity|].
  rewrite !filter_cons. destruct (decide (Q x)) as [Hq|Hq].
  - now rewrite filter_cons, IH.
  - rewrite IH. destruct (decide (P x)) as [Hp|]; [|reflexivity].
    now destruct (Hq (Himp x Hp)).
Qed.

Ltac keys_goal :=
  unfold commit_user, commit_task, commit_note; simpl;
  repeat (erewrite map_key_replace by reflexivity);
  first [ assumption
        | apply NoDup_key_insert; [reflexivity | assumption]
        | apply NoDup_key_filter; assumption ].

(** X5.  Every request, account deletion included, leaves the keys of the
    user, task, note and transaction tables free of duplicates. *)
Theorem keys_stay_unique (env : Env) (req : Request) (st : State) :
  keys_unique st -> keys_unique (step env req st).
Proof.
  intros (Hu & Ht & Hn & Hx).
  destruct req; unfold_handlers; simpl.
  all: repeat (case_match; simpl).
  all: unfold keys_unique; repeat split; keys_goal.
Qed.

(** ** Rows of other users *)

Lemma find_owned_task_spec (param : option string) (u : User.t) (st : State) (t : Task.t) :
  find_owned_task param u st = Some t -> In t (tasks st) /\ Task.user_id t = User.id u.
Proof.
  unfold find_owned_task. intros H. apply find_some in H as [Hin Hp].
  apply andb_prop in Hp as [_ Hown]. unfold owned_by in Hown. split; [exact Hin | lia].
Qed.

Lemma find_owned_note_spec (param : option string) (u : User.t) (st : State) (n : Note.t) :
  find_owned_note param u st = Some n -> In n (notes st) /\ Note.user_id n = User.id u.
Proof.
  unfold find_owned_note. intros H. apply find_some in H as [Hin Hp].
  apply andb_prop in Hp as [_ Hown]. unfold note_owned_by in Hown. split; [exact Hin | lia].
Qed.

Ltac others_goal :=
  simpl;
  match goal with
  | |- filter _ ?l = filter _ ?l => reflexivity
  | H : find_owned_task _ _ _ = Some ?t |- filter _ (map _ (tasks _)) = _ =>
      apply find_owned_task_spec in H as [? ?];
      eapply (filter_replace Task.id); [eassumption | eassumption | reflexivity | simpl; lia..]
  | H : find_owned_note _ _ _ = Some ?t |- filter _ (map _ (notes _)) = _ =>
      apply find_owned_note_spec in H as [? ?];
      eapply (filter_replace Note.id); [eassumption | eassumption | reflexivity | simpl; lia..]
  | H : find_owned_task _ _ _ = Some ?t |- filter _ (filter _ (tasks _)) = _ =>
      apply find_owned_task_spec in H as [? ?];
      apply (filter_delete Task.id); [assumption | assumption | lia]
  | H : find_owned_note _ _ _ = Some ?t |- filter _ (filter _ (notes _)) = _ =>
      apply find_owned_note_spec in H as [? ?];
      apply (filter_delete Note.id); [assumption | assumption | lia]
  | |- filter _ (_ ++ [_])%list = _ =>
      apply filter_insert_rejected; simpl; intros Hne; now apply Hne
  | |- filter _ (filter _ _) = _ =>
      apply filter_filter_implied; intros ? Hother;
      unfold owned_by, note_owned_by, transaction_owned_by;
      apply Is_true_true_2; apply negb_true_iff; apply Z.eqb_neq; exact Hother
  end.

(** X6.  A request of the logged in user leaves every task, note and
    transaction of every other user exactly as it is, in place and in order,
    whatever id it names. *)
Theorem rows_of_others_untouched (env : Env) (req : Request) (st : State) (u : User.t) :
  current_user st = Some u ->
  keys_unique st ->
  tasks_of_others u (step env req st) = tasks_of_others u st
  /\ notes_of_others u (step env req st) = notes_of_others u st
  /\ transactions_of_others u (step env req st) = transactions_of_others u st.
Proof.
  intros Hcur (Hu & Ht & Hn & Hx).
  unfold tasks_of_others, notes_of_others, transactions_of_others.
  destruct req; unfold_handlers; simpl; rewrite ?Hcur; simpl.
  all: repeat (case_match; simpl).
  all: unfold commit_user, commit_task, commit_note; simpl.
  all: repeat split; others_goal.
Qed.

(** ** Requests that name no row of the caller *)

Lemma id_matches_key (n : Z) (param : option string) :
  id_matches n param = true <-> param_key param = Some n.
Proof.
  unfold id_matches, param_key. destruct param as [s|]; [|easy].
  destruct (int_of_text s) as [m|]; [|easy].
  rewrite Z.eqb_eq. split; congruence.
Qed.

Lemma find_owned_task_none (param : option string) (u : User.t) (st : State) :
  (forall t, In t (tasks st) -> Task.user_id t = User.id u ->
             param_key param <> Some (Task.id t)) ->
  find_owned_task param u st = None.
Proof.
  intros Hno. destruct (find_owned_task param u st) as [t|] eqn:Hfind; [|reflexivity].
  destruct (find_owned_task_spec _ _ _ _ Hfind) as [Hin Hown].
  unfold find_owned_task in Hfind. apply find_some in Hfind as [_ Hp].
  apply andb_prop in Hp as [Hid _]. apply id_matches_key in Hid.
  now destruct (Hno t Hin Hown).
Qed.

Lemma find_owned_note_none (param : option string) (u : User.t) (st : State) :
  (forall n, In n (notes st) -> Note.user_id n = User.id u ->
             param_key param <> Some (Note.id n)) ->
  find_owned_note param u st = None.
Proof.
  intros Hno. destruct (find_owned_note param u st) as [n|] eqn:Hfind; [|reflexivity].
  destruct (find_owned_note_spec _ _ _ _ Hfind) as [Hin Hown].
  unfold find_owned_note in Hfind. apply find_some in Hfind as [_ Hp].
  apply andb_prop in Hp as [Hid _]. apply id_matches_key in Hid.
  now destruct (Hno n Hin Hown).
Qed.

(** X7.  When the id parameter names no task (no note) of the caller --
    it is missing, is not an integer, is unknown or names a row of another
    user -- updating, toggling and deleting answer with the redirect alone:
    nothing is stored and nothing is flashed. *)
Theorem unknown_row_is_ignored (env : Env) (params : gmap string string)
    (st : State) (u : User.t) :
  current_user st = Some u ->
  ((forall t, In t (tasks st) -> Task.user_id t = User.id u ->
              param_key (params !! "task_id") <> Some (Task.id t)) ->
   dispatch env (PostTaskUpdate params) st = Done st [] (Redirect "show_tasks_page"))
  /\ ((forall t, In t (tasks st) -> Task.user_id t = User.id u ->
                 param_key (params !! "id") <> Some (Task.id t)) ->
      dispatch env (GetTaskToggle params) st = Done st [] (Redirect "show_tasks_page")
      /\ dispatch env (GetTaskDelete params) st = Done st [] (Redirect "show_tasks_page"))
  /\ ((forall n, In n (notes st) -> Note.user_id n = User.id u ->
                 param_key (params !! "note_id") <> Some (Note.id n)) ->
      dispatch env (PostNoteUpdate params) st = Done st [] (Redirect "show_notes_page"))
  /\ ((forall n, In n (notes st) -> Note.user_id n = User.id u ->
                 param_key (params !! "id") <> Some (Note.id n)) ->
      dispatch env (GetNoteDelete params) st = Done st [] (Redirect "show_notes_page")).
Proof.
  intros Hcur.
  split; [|split; [|split]]; intros Hno; simpl;
    unfold handle_update_task, handle_toggle_task, handle_delete_task,
      handle_update_note, handle_delete_note, login_required;
    rewrite Hcur;
    first [ now rewrite (find_owned_task_none _ _ _ Hno)
          | now rewrite (find_owned_note_none _ _ _ Hno) ].
Qed.

(** ** Tasks: toggling twice, deleting, adding *)

Lemma toggle_tasks (env : Env) (args : gmap string string) (st : State)
    (u : User.t) (t : Task.t) :
  current_user st = Some u ->
  find_owned_task (args !! "id") u st = Some t ->
  tasks (step env (GetTaskToggle args) st)
  = map (fun r => if Task.id r =? Task.id t
                  then Task.set_is_completed (negb (Task.is_completed t)) t else r)
      (tasks st).
Proof.
  intros Hcur Hfind. unfold step, dispatch, handle_toggle_task, login_required.
  rewrite Hcur, Hfind. simpl. now destruct (Task.is_completed t).
Qed.

Lemma toggle_unfound (env : Env) (args : gmap string string) (st : State) (u : User.t) :
  current_user st = Some u ->
  find_owned_task (args !! "id") u st = None ->
  step env (GetTaskToggle args) st = st.
Proof.
  intros Hcur Hfind. unfold step, dispatch, handle_toggle_task, login_required.
  now rewrite Hcur, Hfind.
Qed.

Lemma set_is_completed_twice (t : Task.t) :
  Task.set_is_completed (negb (negb (Task.is_completed t)))
    (Task.set_is_completed (negb (Task.is_completed t)) t) = t.
Proof. destruct t as [? ? ? ? ? ? c ?]. simpl. unfold Task.set_is_completed. simpl.
  now rewrite negb_involutive. Qed.

(** X8.  With distinct task ids, toggling the same task twice leaves the
    task table exactly as it was (the points awarded on the way are kept). *)
Theorem toggle_twice_restores_tasks (env env' : Env) (args : gmap string string)
    (st : State) :
  NoDup (map Task.id (tasks st)) ->
  tasks (step env' (GetTaskToggle args) (step env (GetTaskToggle args) st)) = tasks st.
Proof.
  intros Hnd. destruct (current_user st) as [u|] eqn:Hcur.
  2:{ now rewrite !(anonymous_step _ _ st Hcur) by reflexivity. }
  destruct (find_owned_task (args !! "id") u st) as [t|] eqn:Hfind.
  2:{ now rewrite !(toggle_unfound _ args st u Hcur Hfind). }
  destruct (toggle_effect env args st u t Hcur Hfind) as (u1 & Hc1 & Hi1 & Hf1 & _).
  rewrite <- (find_owned_task_id _ u u1) in Hf1 by exact Hi1.
  rewrite (toggle_tasks env' args _ u1 _ Hc1 Hf1), (toggle_tasks env args st u t Hcur Hfind).
  rewrite map_map. rewrite <- (map_id (tasks st)) at 2. apply map_ext_in. intros r Hr.
  simpl. destruct (Z.eqb_spec (Task.id r) (Task.id t)) as [E|E].
  - simpl. rewrite Z.eqb_refl.
    destruct (find_owned_task_spec _ _ _ _ Hfind) as [Hin _].
    rewrite (key_unique Task.id (tasks st) r t Hnd Hr Hin E).
    apply set_is_completed_twice.
  - destruct (Z.eqb_spec (Task.id r) (Task.id t)); [contradiction | reflexivity].
Qed.

Lemma find_owned_task_key (param : option string) (u : User.t) (st : State) (t : Task.t) :
  find_owned_task param u st = Some t -> param_key param = Some (Task.id t).
Proof.
  unfold find_owned_task. intros H. apply find_some in H as [_ Hp].
  apply andb_prop in Hp as [Hid _]. now apply id_matches_key.
Qed.

(** X9.  With distinct task ids, deleting an owned task removes that task
    and no other, and a second deletion with the same id finds nothing and
    changes nothing. *)
Theorem delete_task_removes_it (env env' : Env) (args : gmap string string)
    (st : State) (u : User.t) (t : Task.t) :
  NoDup (map Task.id (tasks st)) ->
  current_user st = Some u ->
  find_owned_task (args !! "id") u st = Some t ->
  let st' := step env (GetTaskDelete args) st in
  (forall r, In r (tasks st') <-> In r (tasks st) /\ r <> t)
  /\ users st' = users st /\ notes st' = notes st
  /\ find_owned_task (args !! "id") u st' = None
  /\ step env' (GetTaskDelete args) st' = st'.
Proof.
  intros Hnd Hcur Hfind st'.
  destruct (find_owned_task_spec _ _ _ _ Hfind) as [Hin Hown].
  assert (st' = set_tasks (filter (fun r => negb (Task.id r =? Task.id t)) (tasks st)) st)
    as Hst'.
  { unfold st', step, dispatch, handle_delete_task, login_required.
    now rewrite Hcur, Hfind. }
  assert (forall r, In r (tasks st') <-> In r (tasks st) /\ r <> t) as Hrows.
  { intros r. rewrite Hst'. simpl. rewrite <- !list_elem_of_In, list_elem_of_filter.
    rewrite list_elem_of_In. split.
    - intros [Hne Hr]. split; [exact Hr|]. intros ->.
      rewrite Z.eqb_refl in Hne. exact Hne.
    - intros [Hr Hne]. split; [|exact Hr].
      destruct (Z.eqb_spec (Task.id r) (Task.id t)) as [E|E]; [|exact I].
      destruct Hne. now apply (key_unique Task.id (tasks st)). }
  assert (find_owned_task (args !! "id") u st' = None) as Hgone.
  { apply find_owned_task_none. intros r Hr _.
    rewrite (find_owned_task_key _ _ _ _ Hfind). intros [= E].
    apply Hrows in Hr as [Hr Hne]. apply Hne.
    now apply (key_unique Task.id (tasks st)). }
  split; [exact Hrows|]. split; [now rewrite Hst'|]. split; [now rewrite Hst'|].
  split; [exact Hgone|].
  unfold step, dispatch, handle_delete_task, login_required.
  assert (current_user st' = Some u) as -> by (now rewrite Hst').
  now rewrite Hgone.
Qed.

Lemma date_field_ok (form : gmap string string) (key : string) (dflt : option Z) :
  date_text_ok form key -> exists d, date_field form key dflt = Some d.
Proof.
  unfold date_text_ok, date_field. destruct (form !! key) as [s|]; [|now eexists].
  intros [->|[d Hd]]; [now eexists|].
  rewrite Hd. destruct (Text.nonempty s); now eexists.
Qed.

Lemma find_app_missing {A : Type} (p : A -> bool) (l l' : list A) :
  find p l = None -> find p (l ++ l') = find p l'.
Proof.
  induction l as [|y l IH]; simpl; [reflexivity|].
  destruct (p y); [discriminate | exact IH].
Qed.

(** X10.  A task added with a title and readable dates is appended with a
    fresh id, owned by the caller, incomplete and of priority medium unless
    the form names one; the caller holds the Task Starter flag afterwards,
    and toggling the new task by its id awards the points of that
    priority. *)
Theorem added_task_is_completable (env env' : Env) (form args : gmap string string)
    (st : State) (u : User.t) (title : string) :
  current_user st = Some u ->
  form !! "title" = Some title ->
  date_text_ok form "start_date" ->
  date_text_ok form "deadline_date" ->
  param_key (args !! "id") = Some (next_id (map Task.id (tasks st))) ->
  let st1 := step env (PostTaskAdd form) st in
  (exists t,
      tasks st1 = (tasks st ++ [t])%list
      /\ Task.id t = next_id (map Task.id (tasks st))
      /\ Task.user_id t = User.id u
      /\ Task.task_title t = title
      /\ Task.is_completed t = false
      /\ Task.priority_level t = default "medium" (form !! "priority"))
  /\ (exists u1,
        current_user st1 = Some u1
        /\ User.achievement_first_task u1 = true
        /\ User.total_focus_points u1 = User.total_focus_points u)
  /\ (exists u2,
        current_user (step env' (GetTaskToggle args) st1) = Some u2
        /\ User.total_focus_points u2
           = User.total_focus_points u
             + points_for_priority (default "medium" (form !! "priority"))).
Proof.
  intros Hcur Htitle Hstart Hdead Hkey st1.
  destruct (date_field_ok form "start_date" (Some (today env)) Hstart) as [sd Hsd].
  destruct (date_field_ok form "deadline_date" None Hdead) as [dd Hdd].
  set (t := {| Task.id := next_id (map Task.id (tasks st));
               Task.user_id := User.id u;
               Task.task_title := title;
               Task.start_date := default (today env) sd;
               Task.deadline_date := dd;
               Task.priority_level := default "medium" (form !! "priority");
               Task.is_completed := false;
               Task.task_created_at := utcnow env |}).
  set (u1 := if negb (User.achievement_first_task u)
             then User.set_achievement_first_task true u else u).
  assert (st1 = commit_user u1 (set_tasks (tasks st ++ [t]) st)) as Hst1.
  { unfold st1, step, dispatch, handle_add_task, login_required, try.
    now rewrite Hcur, Hsd, Hdd, Htitle. }
  assert (User.id u1 = User.id u) as Hid by (unfold u1; now destruct (negb _)).
  assert (current_user st1 = Some u1) as Hcur1.
  { rewrite Hst1. now apply (current_user_commit u _ st). }
  assert (find_owned_task (args !! "id") u1 st1 = Some t) as Hfind.
  { rewrite Hst1. unfold find_owned_task. simpl. rewrite find_app_missing.
    - simpl. unfold owned_by. simpl. rewrite Hid, Z.eqb_refl.
      now rewrite (proj2 (id_matches_key _ _) Hkey).
    - destruct (find _ (tasks st)) as [r|] eqn:Hr; [|reflexivity].
      apply find_some in Hr as [Hin Hp]. apply andb_prop in Hp as [Hm _].
      apply id_matches_key in Hm. rewrite Hkey in Hm. injection Hm as Hm.
      exfalso. apply (next_id_fresh (map Task.id (tasks st))).
      rewrite Hm. now apply in_map. }
  split; [|split].
  - exists t. rewrite Hst1. now repeat split.
  - exists u1. split; [exact Hcur1|]. unfold u1.
    destruct (User.achievement_first_task u) eqn:Hf; simpl; now split.
  - destruct (toggle_effect env' args st1 u1 t Hcur1 Hfind) as (u2 & Hc2 & _ & _ & Hp).
    exists u2. split; [exact Hc2|]. rewrite Hp. simpl.
    unfold u1. now destruct (negb _).
Qed.

(** ** Registration and login *)

Lemma lower_ascii_idempotent (c : ascii) :
  Text.lower_ascii (Text.lower_ascii c) = Text.lower_ascii c.
Proof. destruct c as [[] [] [] [] [] [] [] []]; reflexivity. Qed.

Lemma lower_idempotent (s : string) : Text.lower (Text.lower s) = Text.lower s.
Proof.
  induction s as [|c s IH]; simpl; [reflexivity|].
  now rewrite lower_ascii_idempotent, IH.
Qed.

Lemma field_normalised_lower (form : gmap string string) (key : string) :
  Text.lower (Text.field_normalised form key) = Text.field_normalised form key.
Proof. unfold Text.field_normalised. apply lower_idempotent. Qed.

Lemma existsb_false_forall {A : Type} (p : A -> bool) (l : list A) :
  (forall x, In x l -> p x = false) -> existsb p l = false.
Proof.
  intros H. destruct (existsb p l) eqn:E; [|reflexivity].
  apply existsb_exists in E as (x & Hin & Hx). rewrite (H x Hin) in Hx. discriminate.
Qed.





(** ** Usernames and emails stay unique *)

Lemma identities_inherited (st st' : State) :
  identities_from st st' -> identities_unique st -> identities_unique st'.
Proof.
  intros Hfrom Huniq a' b' Ha' Hb' Hshare.
  destruct (Hfrom a' Ha') as (a & Ha & Hida & Hna & Hea).
  destruct (Hfrom b' Hb') as (b & Hb & Hidb & Hnb & Heb).
  rewrite <- Hida, <- Hidb. apply (Huniq a b Ha Hb).
  destruct Hshare as [Hn | (ea & eb & Hma & Hmb & Hm)].
  - left. now rewrite Hna, Hnb.
  - right. exists ea, eb.
    destruct Hea as [Hea|Hea]; [|congruence]. destruct Heb as [Heb|Heb]; [|congruence].
    repeat split; congruence.
Qed.

Lemma identities_from_same (st st' : State) :
  users st' = users st -> identities_from st st'.
Proof. intros E r Hr. rewrite E in Hr. exists r. auto. Qed.

Lemma identities_from_commit (st st1 : State) (u u' : User.t) :
  In u (users st) -> User.id u' = User.id u -> User.username u' = User.username u ->
  User.email u' = User.email u \/ User.email u' = None ->
  users st1 = users st -> identities_from st (commit_user u' st1).
Proof.
  intros Hin Hid Hname Hmail E r' Hr'. unfold commit_user in Hr'. simpl in Hr'.
  rewrite E in Hr'. apply in_map_iff in Hr' as (r & Hr & Hin').
  destruct (Z.eqb_spec (User.id r) (User.id u')); subst r'.
  - exists u. auto.
  - exists r. auto.
Qed.

Lemma identities_from_filter (st st' : State) (P : User.t -> Prop)
    `{forall x, Decision (P x)} :
  users st' = filter P (users st) -> identities_from st st'.
Proof.
  intros E r Hr. rewrite E in Hr. apply list_elem_of_In, list_elem_of_filter in Hr as [_ Hr].
  apply list_elem_of_In in Hr. exists r. auto.
Qed.

Lemma username_is_false (name : string) (st : State) (r : User.t) :
  existsb (username_is name) (users st) = false -> In r (users st) ->
  Text.lower (User.username r) <> name.
Proof.
  intros Hex Hin E. assert (existsb (username_is name) (users st) = true) as Ht.
  { apply existsb_exists. exists r. split; [exact Hin|]. unfold username_is.
    rewrite E. apply String.eqb_refl. }
  congruence.
Qed.

Lemma email_is_false (mail : string) (st : State) (r : User.t) (e : string) :
  existsb (email_is mail) (users st) = false -> In r (users st) ->
  User.email r = Some e -> Text.lower e <> mail.
Proof.
  intros Hex Hin He E. assert (existsb (email_is mail) (users st) = true) as Ht.
  { apply existsb_exists. exists r. split; [exact Hin|]. unfold email_is.
    rewrite He, E. apply String.eqb_refl. }
  congruence.
Qed.

Lemma identities_register (st : State) (new_user : User.t) (name mail : string) :
  identities_unique st ->
  existsb (username_is name) (users st) = false ->
  Text.nonempty mail && existsb (email_is mail) (users st) = false ->
  Text.lower name = name -> Text.lower mail = mail ->
  User.username new_user = name ->
  User.email new_user = (if Text.nonempty mail then Some mail else None) ->
  identities_unique (set_users (users st ++ [new_user]) st).
Proof.
  intros Huniq Hname Hmail Hln Hlm Hun Hum.
  assert (forall b, In b (users st) ->
            Text.lower (User.username new_user) = Text.lower (User.username b)
            \/ (exists ea eb, User.email new_user = Some ea /\ User.email b = Some eb
                              /\ Text.lower ea = Text.lower eb) -> False) as Hnew.
  { intros b Hb [Hn | (ea & eb & Hma & Hmb & Hm)].
    - rewrite Hun, Hln in Hn. now apply (username_is_false name st b).
    - rewrite Hum in Hma. destruct (Text.nonempty mail); [|discriminate].
      injection Hma as <-. rewrite Hlm in Hm. simpl in Hmail.
      now apply (email_is_false mail st b eb). }
  intros a b Ha Hb Hshare. simpl in Ha, Hb.
  apply in_app_or in Ha as [Ha|[<-|[]]]; apply in_app_or in Hb as [Hb|[<-|[]]].
  - now apply Huniq.
  - exfalso. apply (Hnew a Ha).
    destruct Hshare as [Hn | (ea & eb & Hma & Hmb & Hm)]; [now left|].
    right. exists eb, ea. auto.
  - exfalso. now apply (Hnew b Hb).
  - reflexivity.
Qed.

Lemma identities_new_email (st st1 : State) (u u' : User.t) (mail : string) :
  identities_unique st -> In u (users st) ->
  existsb (email_is mail) (users st) = false -> Text.lower mail = mail ->
  User.id u' = User.id u -> User.username u' = User.username u ->
  User.email u' = Some mail -> users st1 = users st ->
  identities_unique (commit_user u' st1).
Proof.
  intros Huniq Hin Hmail Hlm Hid Hname Hemail E.
  assert (forall r', In r' (users (commit_user u' st1)) ->
            r' = u' \/ (In r' (users st) /\ User.id r' <> User.id u')) as Hrows.
  { intros r' Hr'. unfold commit_user in Hr'. simpl in Hr'. rewrite E in Hr'.
    apply in_map_iff in Hr' as (r & Hr & Hin').
    destruct (Z.eqb_spec (User.id r) (User.id u')); subst r'; auto. }
  assert (forall b, In b (users st) -> User.id b <> User.id u' ->
            Text.lower (User.username u') = Text.lower (User.username b)
            \/ (exists ea eb, User.email u' = Some ea /\ User.email b = Some eb
                              /\ Text.lower ea = Text.lower eb) -> False) as Hnew.
  { intros b Hb Hne [Hn | (ea & eb & Hma & Hmb & Hm)].
    - apply Hne. rewrite Hid. symmetry. apply (Huniq u b Hin Hb). left. now rewrite <- Hname.
    - rewrite Hemail in Hma. injection Hma as <-. rewrite Hlm in Hm.
      now apply (email_is_false mail st b eb). }
  intros a b Ha Hb Hshare.
  destruct (Hrows a Ha) as [->|[Ha' Hna]]; destruct (Hrows b Hb) as [->|[Hb' Hnb]].
  - reflexivity.
  - exfalso. now apply (Hnew b Hb' Hnb).
  - exfalso. apply (Hnew a Ha' Hna).
    destruct Hshare as [Hn | (ea & eb & Hma & Hmb & Hm)]; [now left|].
    right. exists eb, ea. auto.
  - now apply Huniq.
Qed.

(** X12.  No request makes two accounts share a username or an email,
    compared without case: if every two stored rows that share one have the
    same id, the same holds after the request. *)
Theorem identities_stay_unique (env : Env) (req : Request) (st : State) :
  identities_unique st -> identities_unique (step env req st).
Proof.
  intros Huniq.
  destruct req; unfold_handlers; simpl.
  all: repeat (case_match; simpl).
  all: try exact Huniq.
  all: try (apply (identities_inherited st); [|exact Huniq];
            first [ apply identities_from_same; reflexivity
                  | eapply identities_from_commit;
                    [stored_user | reflexivity | reflexivity | solve [simpl; auto]
                    | reflexivity]
                  | eapply identities_from_filter; reflexivity ]).
  (* the two places an identity is written: a new account, a new email *)
  all: match goal with
       | Hn : Text.nonempty ?m = _
         |- identities_unique
              (set_users (_ ++ [User.mk _ ?n _ _ _ _ _ _ _ _ _ _ _ _ _ _ _ _]) ?s) =>
           apply (identities_register s _ n m);
           [ exact Huniq | assumption
           | rewrite Hn; simpl; first [assumption | reflexivity]
           | apply field_normalised_lower | apply field_normalised_lower
           | reflexivity | simpl; rewrite Hn; reflexivity ]
       | Hc : current_user ?s = Some ?u
         |- identities_unique (commit_user (_ (User.set_email (Some ?m) ?u)) ?s) =>
           apply (identities_new_email s s u _ m);
           [ exact Huniq | stored_user | assumption | apply field_normalised_lower
           | reflexivity | reflexivity | reflexivity | reflexivity ]
       end.
Qed.

(** ** Account deletion *)

Lemma in_filter_bool {A : Type} (p : A -> bool) (l : list A) (x : A) :
  In x (filter (fun r => p r) l) <-> p x = true /\ In x l.
Proof.
  rewrite <- !list_elem_of_In, list_elem_of_filter, Is_true_true. reflexivity.
Qed.

(** X13.  Deleting the account with a password the library rejects stores
    nothing.  With an accepted password the user row and every task, note
    and transaction of the user are gone, the rows of the other users stay,
    the session is closed and no protected route changes the store from
    then on. *)
Theorem account_deletion_removes_everything (env env' : Env)
    (form : gmap string string) (st : State) (u : User.t) :
  current_user st = Some u ->
  (check_password_hash (User.password_hash u) (form !! "password") = Some false ->
   dispatch env (PostSettingsDelete form) st
   = Done st [("Incorrect password", "error")] (Redirect "show_settings_page"))
  /\ (check_password_hash (User.password_hash u) (form !! "password") = Some true ->
      let st' := step env (PostSettingsDelete form) st in
      load_user_by_id (User.id u) st' = None
      /\ session_user st' = None
      /\ (forall r, In r (users st') <-> In r (users st) /\ User.id r <> User.id u)
      /\ (forall t, In t (tasks st') <-> In t (tasks st) /\ Task.user_id t <> User.id u)
      /\ (forall n, In n (notes st') <-> In n (notes st) /\ Note.user_id n <> User.id u)
      /\ (forall x, In x (transactions st') <->
                    In x (transactions st) /\ Transaction.user_id x <> User.id u)
      /\ (forall req, is_public req = false -> step env' req st' = st')).
Proof.
  intros Hcur. split; intros Hcheck.
  - simpl. unfold handle_delete_account, login_required, try. now rewrite Hcur, Hcheck.
  - intros st'.
    assert (st' = {| users := filter (fun r => negb (User.id r =? User.id u)) (users st);
                     tasks := filter (fun t => negb (owned_by u t)) (tasks st);
                     notes := filter (fun n => negb (note_owned_by u n)) (notes st);
                     transactions :=
                       filter (fun x => negb (transaction_owned_by u x)) (transactions st);
                     session_user := None |}) as Hst'.
    { unfold st', step, dispatch, handle_delete_account, login_required, try.
      now rewrite Hcur, Hcheck. }
    assert (forall r, In r (users st') <-> In r (users st) /\ User.id r <> User.id u)
      as Husers.
    { intros r. rewrite Hst'. simpl. rewrite in_filter_bool, negb_true_iff, Z.eqb_neq.
      tauto. }
    split; [|split; [now rewrite Hst'|split; [exact Husers|]]].
    { unfold load_user_by_id. destruct (find _ (users st')) as [r|] eqn:Hr; [|reflexivity].
      apply find_some in Hr as [Hin Hid]. apply Husers in Hin as [_ Hne].
      apply Z.eqb_eq in Hid. contradiction. }
    split; [|split; [|split]].
    + intros t. rewrite Hst'. simpl. unfold owned_by.
      rewrite in_filter_bool, negb_true_iff, Z.eqb_neq. tauto.
    + intros n. rewrite Hst'. simpl. unfold note_owned_by.
      rewrite in_filter_bool, negb_true_iff, Z.eqb_neq. tauto.
    + intros x. rewrite Hst'. simpl. unfold transaction_owned_by.
      rewrite in_filter_bool, negb_true_iff, Z.eqb_neq. tauto.
    + intros req Hreq. apply anonymous_step; [|exact Hreq]. now rewrite Hst'.
Qed.

(** ** Collecting energy *)

(** The focus page for a user with a non-negative number of stars, viewed
    not before the anchor. *)
Lemma focus_collects (env : Env) (st : State) (u : User.t) :
  current_user st = Some u ->
  0 <= User.stars_earned u ->
  User.last_energy_collection_time u <= utcnow env ->
  exists u',
    current_user (step env GetFocus st) = Some u'
    /\ User.id u' = User.id u
    /\ User.stars_earned u' = User.stars_earned u
    /\ User.energy_bank_balance u'
       = User.energy_bank_balance u
         + (utcnow env - User.last_energy_collection_time u) / 5000000
           * User.stars_earned u
    /\ (User.last_energy_collection_time u' = utcnow env
        \/ (User.last_energy_collection_time u' = User.last_energy_collection_time u
            /\ (utcnow env - User.last_energy_collection_time u) / 5000000
               * User.stars_earned u = 0)).
Proof.
  intros Hcur Hk Ht. rewrite (focus_state env st u Hcur).
  assert (energy_accumulated (utcnow env) u
          = (utcnow env - User.last_energy_collection_time u) / 5000000
            * User.stars_earned u) as He.
  { unfold energy_accumulated. now rewrite int_of_quotient_floor by lia. }
  rewrite He.
  assert (0 <= (utcnow env - User.last_energy_collection_time u) / 5000000) as Hq
    by (apply Z.div_pos; lia).
  destruct (Z.ltb_spec 0 ((utcnow env - User.last_energy_collection_time u) / 5000000
                          * User.stars_earned u)) as [Hpos|Hzero].
  - eexists. split; [now apply (current_user_commit u _ st st)|]. simpl.
    repeat split. now left.
  - exists u. split; [exact Hcur|]. repeat split; [nia|]. right. split; [reflexivity | nia].
Qed.

(** X14.  Viewing the focus page at an earlier moment as well never yields
    more energy than viewing it once at the later moment, and costs at most
    one unit per star: the seconds short of a full period are dropped when
    the anchor advances. *)
Theorem early_view_costs_at_most_one_period (env1 env2 : Env) (st : State) (u : User.t) :
  current_user st = Some u ->
  0 <= User.stars_earned u ->
  User.last_energy_collection_time u <= utcnow env1 ->
  utcnow env1 <= utcnow env2 ->
  exists a b,
    current_user (step env2 GetFocus (step env1 GetFocus st)) = Some a
    /\ current_user (step env2 GetFocus st) = Some b
    /\ User.energy_bank_balance b - User.stars_earned u <= User.energy_bank_balance a
    /\ User.energy_bank_balance a <= User.energy_bank_balance b.
Proof.
  intros Hcur Hk H01 H12.
  destruct (focus_collects env1 st u Hcur Hk H01) as (u1 & Hc1 & _ & Hs1 & He1 & Ht1).
  destruct (focus_collects env2 st u Hcur Hk ltac:(lia)) as (b & Hcb & _ & _ & Heb & _).
  assert (User.last_energy_collection_time u1 <= utcnow env2) as H1 by (destruct Ht1; lia).
  destruct (focus_collects env2 _ u1 Hc1 ltac:(lia) H1) as (a & Hca & _ & _ & Hea & _).
  exists a, b. split; [exact Hca|]. split; [exact Hcb|].
  rewrite Hea, Heb, He1, Hs1.
  set (t0 := User.last_energy_collection_time u) in *.
  set (k := User.stars_earned u) in *.
  destruct Ht1 as [Ht1|[Ht1 Hz]]; rewrite Ht1.
  - assert ((utcnow env1 - t0) / 5000000 + (utcnow env2 - utcnow env1) / 5000000
            <= (utcnow env2 - t0) / 5000000
            /\ (utcnow env2 - t0) / 5000000
               <= (utcnow env1 - t0) / 5000000 + (utcnow env2 - utcnow env1) / 5000000 + 1)
      as [Hlo Hhi] by (split; Z.div_mod_to_equations; lia).
    split; nia.
  - split; nia.
Qed.

(** X15.  Completing a focus session forfeits the energy that was pending:
    the bank is left as it is and the anchor moves to the session's end, so
    the next view of the focus page collects for the time since the session
    only, at the new number of stars. *)
Theorem session_forfeits_pending_energy (env1 env2 : Env) (body : pyval) (st : State)
    (u : User.t) (m : Z) :
  current_user st = Some u ->
  Py.get (Py.or_empty_dict body) "minutes" (PyInt 1) = Some (PyInt m) ->
  0 <= User.stars_earned u ->
  utcnow env1 <= utcnow env2 ->
  exists u1 u2,
    current_user (step env1 (PostFocusCompleteSession body) st) = Some u1
    /\ User.energy_bank_balance u1 = User.energy_bank_balance u
    /\ User.last_energy_collection_time u1 = utcnow env1
    /\ current_user (step env2 GetFocus (step env1 (PostFocusCompleteSession body) st))
       = Some u2
    /\ User.energy_bank_balance u2
       = User.energy_bank_balance u
         + (utcnow env2 - utcnow env1) / 5000000 * (User.stars_earned u + 1).
Proof.
  intros Hcur Hget Hk H12.
  destruct (session_complete_effect env1 body (PyInt m) st u m Hcur Hget eq_refl)
    as (u1 & Hrun & Hc1 & Hs1 & _ & Ht1 & _ & _ & _ & _ & He1).
  assert (step env1 (PostFocusCompleteSession body) st = commit_user u1 st) as Hst1.
  { unfold step. simpl. now rewrite Hrun. }
  rewrite Hst1.
  destruct (focus_collects env2 _ u1 Hc1 ltac:(lia) ltac:(lia))
    as (u2 & Hc2 & _ & _ & He2 & _).
  exists u1, u2. repeat split; try assumption.
  now rewrite He2, He1, Ht1, Hs1.
Qed.

(** ** The dashboard figures *)

Lemma daily_goal_values (u : User.t) (st : State) :
  let goal := fst (daily_goal u st) in goal = 0 \/ goal = 10 \/ goal = 15 \/ goal = 30.
Proof.
  unfold daily_goal. repeat case_match; simpl; auto.
Qed.

Lemma progress_of_bounds (minutes goal : Z) :
  progress_of minutes goal <= 100
  /\ (0 <= minutes -> 0 <= progress_of minutes goal)
  /\ (0 < goal -> (progress_of minutes goal = 100 <-> goal <= minutes)).
Proof.
  unfold progress_of, int_of_quotient. destruct (Z.ltb_spec 0 goal) as [Hg|Hg].
  - destruct (Z.le_gt_cases 0 minutes) as [Hm|Hm].
    + rewrite Z.quot_div_nonneg by lia.
      assert (0 <= minutes * 100 / goal) by (apply Z.div_pos; lia).
      split; [lia|]. split; [lia|]. intros _. split; intros H100.
      * assert (100 <= minutes * 100 / goal) as Hq by lia.
        destruct (Z.le_gt_cases goal minutes) as [|Hlt]; [assumption|].
        assert (minutes * 100 / goal < 100); [|lia].
        apply Z.div_lt_upper_bound; lia.
      * assert (100 <= minutes * 100 / goal); [|lia].
        apply Z.div_le_lower_bound; lia.
    + assert (Z.quot (minutes * 100) goal <= 0) as Hq.
      { replace (minutes * 100) with (- (- minutes * 100)) by lia.
        rewrite Z.quot_opp_l by lia.
        assert (0 <= Z.quot (- minutes * 100) goal) by (apply Z.quot_pos; lia). lia. }
      split; [lia|]. split; [lia|]. intros _. split; lia.
  - split; [lia|]. split; lia.
Qed.

(** X16.  The dashboard's goal is 0, 10, 15 or 30; its progress never
    exceeds 100, is not negative when the minutes shown are not, and with a
    goal it is 100 exactly when the minutes reach the goal; the count of
    unlocked achievements lies between 0 and 5. *)
Theorem dashboard_figures_in_range (env : Env) (st : State) (u : User.t) :
  current_user st = Some u ->
  exists st' v,
    show_dashboard env st = Done st' [] (RenderHome v)
    /\ (Home.daily_focus_goal v = 0 \/ Home.daily_focus_goal v = 10
        \/ Home.daily_focus_goal v = 15 \/ Home.daily_focus_goal v = 30)
    /\ Home.progress_percentage v <= 100
    /\ (0 <= Home.focus_minutes_today v -> 0 <= Home.progress_percentage v)
    /\ (0 < Home.daily_focus_goal v ->
        (Home.progress_percentage v = 100
         <-> Home.daily_focus_goal v <= Home.focus_minutes_today v))
    /\ 0 <= Home.unlocked_count v <= 5
    /\ 0 <= Home.active_tasks_count v.
Proof.
  intros Hcur. unfold show_dashboard, login_required. rewrite Hcur.
  match goal with |- context [daily_goal ?x ?y] =>
    pose proof (daily_goal_values x y) as Hvals;
    destruct (daily_goal x y) as [goal msg] end.
  simpl in Hvals. eexists _, _. split; [reflexivity|]. simpl.
  split; [exact Hvals|].
  match goal with |- context [progress_of ?m goal] =>
    destruct (progress_of_bounds m goal) as (Hle & Hnn & Hfull) end.
  split; [exact Hle|]. split; [exact Hnn|]. split; [exact Hfull|].
  split; [|unfold Z_count; lia].
  repeat match goal with
         | |- context [Z.b2z ?b] =>
             lazymatch b with true => fail | false => fail | _ => destruct b end
         end; simpl; lia.
Qed.

(** ** Adding points *)


(** ** The demo account *)

(** X18.  When the initialization succeeds, a user named artur is stored,
    every user stored before is still stored, and running it again adds
    nothing. *)
Theorem demo_account_is_created_once (env env' : Env) (st st1 : State) :
  create_demo_account env st = Some st1 ->
  (exists r, In r (users st1) /\ User.username r = "artur")
  /\ (forall r, In r (users st) -> In r (users st1))
  /\ create_demo_account env' st1 = Some st1.
Proof.
  unfold create_demo_account.
  destruct (existsb (fun u => String.eqb (User.username u) "artur") (users st)) eqn:Hex.
  - intros Hst1. injection Hst1 as <-. split; [|split; [auto|now rewrite Hex]].
    apply existsb_exists in Hex as (r & Hin & Hr). exists r. split; [exact Hin|].
    now apply String.eqb_eq.
  - destruct (generate_password_hash (salt env) (Some "123")) as [hash|]; [|discriminate].
    destruct (existsb (fun u => opt_string_eqb (User.email u) (Some "artur@demo.com"))
                (users st)); [discriminate|].
    intros Hst1. injection Hst1 as <-. simpl. split; [|split].
    + eexists. split; [apply in_or_app; right; left; reflexivity | reflexivity].
    + intros r Hr. apply in_or_app. now left.
    + rewrite existsb_app. simpl. now rewrite orb_true_r.
Qed.

(** ** Budget sums *)

Lemma round_half_even_cases (q : Q) :
  Num.round_half_even q = Qfloor q \/ Num.round_half_even q = Qfloor q + 1.
Proof.
  unfold Num.round_half_even. destruct (Qcompare _ _); [|auto..].
  destruct (Z.even _); auto.
Qed.

Lemma round_half_even_mono (q1 q2 : Q) :
  (q1 <= q2)%Q -> Num.round_half_even q1 <= Num.round_half_even q2.
Proof.
  intros Hle. pose proof (Qfloor_resp_le _ _ Hle) as Hf.
  destruct (Z.eq_dec (Qfloor q1) (Qfloor q2)) as [E|E].
  - unfold Num.round_half_even. rewrite E.
    destruct (Qcompare_spec (q1 - inject_Z (Qfloor q2)) (1 # 2)) as [H1|H1|H1];
      destruct (Qcompare_spec (q2 - inject_Z (Qfloor q2)) (1 # 2)) as [H2|H2|H2];
      try (destruct (Z.even _)); try lia; exfalso; lra.
  - destruct (round_half_even_cases q1), (round_half_even_cases q2); lia.
Qed.

Lemma py_round_mono (x y : Qc) (ndigits : nat) :
  (x <= y)%Qc -> (Num.py_round x ndigits <= Num.py_round y ndigits)%Qc.
Proof.
  intros Hle. unfold Num.py_round, Qcle. simpl. apply Qred_le.
  assert (0 < inject_Z (10 ^ Z.of_nat ndigits))%Q as Hs.
  { rewrite <- (Zlt_Qlt 0). apply Z.pow_pos_nonneg; lia. }
  unfold Qdiv. apply Qmult_le_compat_r.
  - rewrite <- Zle_Qle. apply round_half_even_mono.
    apply Qmult_le_compat_r; [exact Hle | now apply Qlt_le_weak].
  - apply Qlt_le_weak. now apply Qinv_lt_0_compat.
Qed.

Lemma Qc_sum_filter_le {A : Type} (amount : A -> Qc) (P Q : A -> Prop)
    `{forall x, Decision (P x)} `{forall x, Decision (Q x)} (l : list A) :
  (forall x, In x l -> P x -> Q x) ->
  (forall x, In x l -> Q x -> (Q2Qc 0 <= amount x)%Qc) ->
  (Num.Qc_sum (map amount (filter P l)) <= Num.Qc_sum (map amount (filter Q l)))%Qc.
Proof.
  induction l as [|x l IH]; intros Himp Hpos; [apply Qcle_refl|].
  assert (Num.Qc_sum (map amount (filter P l)) <= Num.Qc_sum (map amount (filter Q l)))%Qc
    as IH' by (apply IH; intros; [apply Himp | apply Hpos]; auto; now right).
  rewrite !filter_cons.
  destruct (decide (P x)) as [Hp|Hp]; destruct (decide (Q x)) as [Hq|Hq]; simpl.
  - apply Qcplus_le_compat; [apply Qcle_refl | exact IH'].
  - destruct Hq. apply Himp; [now left | exact Hp].
  - rewrite <- (Qcplus_0_l (Num.Qc_sum (map amount (filter P l)))).
    apply Qcplus_le_compat; [|exact IH']. apply Hpos; [now left | exact Hq].
  - exact IH'.
Qed.

Lemma Qc_sum_nonneg (l : list Qc) :
  (forall x, In x l -> (Q2Qc 0 <= x)%Qc) -> (Q2Qc 0 <= Num.Qc_sum l)%Qc.
Proof.
  induction l as [|x l IH]; intros Hpos; simpl; [apply Qcle_refl|].
  rewrite <- (Qcplus_0_l (Q2Qc 0)). apply Qcplus_le_compat.
  - apply Hpos. now left.
  - apply IH. intros y Hy. apply Hpos. now right.
Qed.

(** X19.  When no expense of the user has a negative amount, the budget
    page shows weekly expenses that do not exceed the monthly expenses, and
    monthly expenses that do not exceed the total expenses; none of the
    three is negative. *)
Theorem expense_windows_are_nested (env : Env) (st : State) (u : User.t) :
  current_user st = Some u ->
  (forall x, In x (transactions st) -> Transaction.user_id x = User.id u ->
             Transaction.transaction_type x = "expense" ->
             (Q2Qc 0 <= Transaction.transaction_amount x)%Qc) ->
  exists v,
    show_budget_page env st = Done st [] (RenderBudget v)
    /\ (Q2Qc 0 <= Budget.weekly_expenses v)%Qc
    /\ (Budget.weekly_expenses v <= Budget.monthly_expenses v)%Qc
    /\ (Budget.monthly_expenses v <= Budget.total_expenses v)%Qc.
Proof.
  intros Hcur Hpos. unfold show_budget_page, login_required. rewrite Hcur.
  eexists. split; [reflexivity|]. simpl.
  assert (forall (x : Transaction.t) (b : bool),
            In x (transactions st) ->
            Is_true (transaction_owned_by u x
                     && String.eqb (Transaction.transaction_type x) "expense" && b) ->
            (Q2Qc 0 <= Transaction.transaction_amount x)%Qc) as Hsel.
  { intros x b Hin Hx. apply Is_true_true_1 in Hx.
    apply andb_prop in Hx as [Hx _]. apply andb_prop in Hx as [Hown Hty].
    apply Hpos; [exact Hin | unfold transaction_owned_by in Hown; lia
                | now apply String.eqb_eq]. }
  split; [|split].
  - replace (Q2Qc 0) with (Num.py_round (Q2Qc 0) 2)
      by (apply Qc_is_canon; vm_compute; reflexivity).
    apply py_round_mono. unfold expenses_since. apply Qc_sum_nonneg.
    intros a Ha. apply in_map_iff in Ha as (x & <- & Hx).
    apply list_elem_of_In, list_elem_of_filter in Hx as [Hx Hin].
    apply list_elem_of_In in Hin. exact (Hsel x _ Hin Hx).
  - apply py_round_mono. unfold expenses_since. apply Qc_sum_filter_le.
    + intros x _ Hx. apply Is_true_true_1 in Hx. apply Is_true_true_2.
      apply andb_prop in Hx as [Hx Hd]. rewrite Hx. simpl. lia.
    + intros x Hin Hx. exact (Hsel x _ Hin Hx).
  - apply py_round_mono. unfold expenses_since, sum_of_type. apply Qc_sum_filter_le.
    + intros x _ Hx. apply Is_true_true_1 in Hx. apply Is_true_true_2.
      now apply andb_prop in Hx as [Hx _].
    + intros x Hin Hx. apply (Hsel x true Hin). now rewrite andb_true_r.
Qed.

Lemma Qc_sum_app (l1 l2 : list Qc) :
  Num.Qc_sum (l1 ++ l2) = (Num.Qc_sum l1 + Num.Qc_sum l2)%Qc.
Proof.
  induction l1 as [|x l1 IH]; simpl; [now rewrite Qcplus_0_l|].
  now rewrite IH, Qcplus_assoc.
Qed.

Lemma sum_of_type_insert (ty : string) (u : User.t) (st : State) (x : Transaction.t) :
  Transaction.user_id x = User.id u ->
  sum_of_type ty u (set_transactions (transactions st ++ [x]) st)
  = (sum_of_type ty u st
     + (if String.eqb (Transaction.transaction_type x) ty
        then Transaction.transaction_amount x else Q2Qc 0))%Qc.
Proof.
  intros Hown. unfold sum_of_type. simpl.
  rewrite filter_app, map_app, Qc_sum_app. f_equal.
  rewrite (filter_cons _ x []). unfold transaction_owned_by. rewrite Hown, Z.eqb_refl.
  simpl. destruct (String.eqb _ ty); simpl; [apply Qcplus_0_r | reflexivity].
Qed.

(** X20.  A transaction added with an amount that parses and all its
    fields present adds that amount to the sum of its own type and to no
    other sum of the user: the balance the budget page shows afterwards is
    the old balance plus an income, minus an expense, and unchanged for any
    other type.  Without an amount, or with one that does not parse, the
    request raises and stores nothing. *)
Theorem transaction_moves_its_own_sum (env env' : Env) (form : gmap string string)
    (st : State) (u : User.t) :
  current_user st = Some u ->
  (forall text amount ty description category,
     form !! "amount" = Some text -> float_of_text text = Some amount ->
     form !! "type" = Some ty -> form !! "description" = Some description ->
     form !! "category" = Some category ->
     let st' := step env (PostTransactionAdd form) st in
     (forall ty',
         sum_of_type ty' u st'
         = (sum_of_type ty' u st + (if String.eqb ty ty' then amount else Q2Qc 0))%Qc)
     /\ exists v,
          show_budget_page env' st' = Done st' [] (RenderBudget v)
          /\ Budget.current_balance v
             = Num.py_round
                 (sum_of_type "income" u st - sum_of_type "expense" u st
                  + (if String.eqb ty "income" then amount
                     else if String.eqb ty "expense" then - amount else Q2Qc 0))%Qc 2)
  /\ (form !! "amount" = None
      \/ (exists text, form !! "amount" = Some text /\ float_of_text text = None) ->
      step env (PostTransactionAdd form) st = st).
Proof.
  intros Hcur. split.
  - intros text amount ty description category Ha Hparse Hty Hd Hc st'.
    set (x := {| Transaction.id := next_id (map Transaction.id (transactions st));
                 Transaction.user_id := User.id u;
                 Transaction.transaction_type := ty;
                 Transaction.transaction_description := description;
                 Transaction.transaction_amount := amount;
                 Transaction.transaction_category := category;
                 Transaction.transaction_date := today env |}).
    assert (st' = set_transactions (transactions st ++ [x]) st) as Hst'.
    { unfold st', step, dispatch, handle_add_transaction, login_required, try.
      now rewrite Hcur, Ha, Hparse, Hty, Hd, Hc. }
    assert (forall ty',
              sum_of_type ty' u st'
              = (sum_of_type ty' u st + (if String.eqb ty ty' then amount else Q2Qc 0))%Qc)
      as Hsum.
    { intros ty'. rewrite Hst'. now rewrite (sum_of_type_insert ty' u st x eq_refl). }
    split; [exact Hsum|].
    unfold show_budget_page, login_required.
    assert (current_user st' = Some u) as -> by (now rewrite Hst').
    eexists. split; [reflexivity|]. simpl. rewrite !Hsum. f_equal.
    destruct (String.eqb_spec ty "income") as [->|Hi]; simpl; [ring|].
    destruct (String.eqb ty "expense"); ring.
  - intros Hbad. unfold step, dispatch, handle_add_transaction, login_required, try.
    rewrite Hcur. destruct Hbad as [->|(text & -> & ->)]; reflexivity.
Qed.

(** ** Changing the password *)

Lemma login_candidate_commit (ident : string) (st : State) (u u' : User.t) :
  login_candidate ident st = Some u ->
  User.id u' = User.id u -> User.username u' = User.username u ->
  User.email u' = User.email u ->
  login_candidate ident (commit_user u' st) = Some u'.
Proof.
  intros Hcand Hid Hname Hmail. pose proof Hcand as Hp.
  unfold login_candidate in Hp. apply find_some in Hp as [_ Hp].
  assert (email_is ident u' || username_is ident u' = true) as Hp'.
  { unfold email_is, username_is in *. now rewrite Hmail, Hname. }
  unfold login_candidate, commit_user in *. simpl.
  rewrite (find_map_first _ (fun x => if User.id x =? User.id u' then u' else x) _ u).
  - now rewrite Hid, Z.eqb_refl.
  - intros x Hx. now destruct (User.id x =? User.id u').
  - intros x Hx Hfx. rewrite <- Hid, Z.eqb_refl.
    destruct (User.id x =? User.id u'); [reflexivity | congruence].
  - exact Hcand.
Qed.

(** X21.  After a password change that passes the checks the stored hash
    is the hash of the new password and nothing else of the user changed; a
    later login under an identifier that selects this user is decided by
    that hash alone: accepted, with the session opened, when the library
    verifies the submitted password against it, refused otherwise. *)
Theorem new_password_decides_login (env env' : Env) (form login_form : gmap string string)
    (st : State) (u : User.t) (pw hash : string) :
  current_user st = Some u ->
  login_candidate (Text.field_normalised login_form "email") st = Some u ->
  check_password_hash (User.password_hash u) (form !! "current_password") = Some true ->
  form !! "new_password" = Some pw ->
  form !! "confirm_password" = Some pw ->
  generate_password_hash (salt env) (Some pw) = Some hash ->
  let st1 := step env (PostSettingsPassword form) st in
  current_user st1 = Some (User.set_password_hash hash u)
  /\ (check_password_hash hash (login_form !! "password") = Some true ->
      exists st2 flashes,
        dispatch env' (PostLogin login_form) st1
        = Done st2 flashes (Redirect "show_dashboard")
        /\ session_user st2 = Some (User.id u))
  /\ (check_password_hash hash (login_form !! "password") = Some false ->
      dispatch env' (PostLogin login_form) st1
      = Done st1 [("Invalid email/username or password", "error")]
          (Redirect "show_landing_page")).
Proof.
  intros Hcur Hcand Hcheck Hnew Hconfirm Hgen st1.
  assert (st1 = commit_user (User.set_password_hash hash u) st) as Hst1.
  { unfold st1, step, dispatch, handle_change_password, login_required, try.
    rewrite Hcur, Hcheck, Hnew, Hconfirm. simpl. rewrite String.eqb_refl. simpl.
    now rewrite Hgen. }
  assert (login_candidate (Text.field_normalised login_form "email") st1
          = Some (User.set_password_hash hash u)) as Hcand1.
  { rewrite Hst1. now apply (login_candidate_commit _ st u). }
  unfold login_candidate in Hcand1.
  split; [|split].
  - rewrite Hst1. now apply (current_user_commit u _ st st).
  - intros Hok. simpl. unfold handle_login, try. rewrite Hcand1. simpl. rewrite Hok.
    destruct (negb (User.achievement_first_login u)); eexists _, _; split; reflexivity.
  - intros Hbad. simpl. unfold handle_login, try. rewrite Hcand1. simpl.
    now rewrite Hbad.
Qed.

(** ** The email of the profile *)

(** X22.  A profile update with an email that another stored user has
    stores nothing and says so; with an email no stored user has it stores
    the normalised email and sets the Connected flag; resubmitting the
    user's own email, in any case, leaves the user as stored. *)
Theorem profile_email_update (env : Env) (form : gmap string string) (st : State)
    (u : User.t) :
  current_user st = Some u ->
  let mail := Text.field_normalised form "email" in
  mail <> EmptyString ->
  (mail <> Text.lower (default EmptyString (User.email u)) ->
   (exists r e, In r (users st) /\ User.email r = Some e /\ Text.lower e = mail) ->
   dispatch env (PostSettingsProfile form) st
   = Done st [("Email already in use", "error")] (Redirect "show_settings_page"))
  /\ (mail <> Text.lower (default EmptyString (User.email u)) ->
      (forall r e, In r (users st) -> User.email r = Some e -> Text.lower e <> mail) ->
      exists u',
        current_user (step env (PostSettingsProfile form) st) = Some u'
        /\ User.email u' = Some mail
        /\ User.achievement_email_added u' = true
        /\ User.username u' = User.username u
        /\ User.password_hash u' = User.password_hash u)
  /\ (mail = Text.lower (default EmptyString (User.email u)) ->
      dispatch env (PostSettingsProfile form) st
      = Done st [("Profile updated!", "success")] (Redirect "show_settings_page")).
Proof.
  intros Hcur mail Hne.
  assert (Text.nonempty mail = true) as Hnonempty by (now apply nonempty_neq).
  split; [|split].
  - intros Hother (r & e & Hin & He & Hlow). simpl.
    unfold handle_update_profile, login_required. rewrite Hcur. fold mail.
    rewrite Hnonempty. destruct (String.eqb_spec mail
      (Text.lower (default EmptyString (User.email u)))) as [E|_]; [contradiction|]. simpl.
    assert (existsb (email_is mail) (users st) = true) as ->; [|reflexivity].
    apply existsb_exists. exists r. split; [exact Hin|]. unfold email_is.
    rewrite He, Hlow. apply String.eqb_refl.
  - intros Hother Hfree. unfold step, dispatch, handle_update_profile, login_required.
    rewrite Hcur. fold mail. rewrite Hnonempty.
    destruct (String.eqb_spec mail
      (Text.lower (default EmptyString (User.email u)))) as [E|_]; [contradiction|]. simpl.
    rewrite existsb_false_forall.
    2:{ intros r Hin. unfold email_is. destruct (User.email r) as [e|] eqn:He; [|reflexivity].
        apply String.eqb_neq. now apply (Hfree r e). }
    simpl. eexists. split; [now apply (current_user_commit u _ st st)|]. now repeat split.
  - intros Hsame. simpl. unfold handle_update_profile, login_required.
    rewrite Hcur. fold mail. rewrite Hnonempty, <- Hsame, String.eqb_refl. reflexivity.
Qed.

(** ** Notes *)

Lemma filter_all_kept {A : Type} (p : A -> bool) (l : list A) :
  (forall x, In x l -> p x = true) -> filter (fun r => p r) l = l.
Proof.
  induction l as [|x l IH]; intros Hall; [reflexivity|].
  rewrite filter_cons, (Hall x (or_introl eq_refl)). simpl.
  f_equal. apply IH. intros y Hy. apply Hall. now right.
Qed.

(** X23.  A note added by the logged in user is appended with a fresh id
    and the Note Taker flag is set; deleting it by that id gives back the
    note table as it was before the note was added. *)
Theorem added_note_can_be_deleted (env env' : Env) (form args : gmap string string)
    (st : State) (u : User.t) :
  current_user st = Some u ->
  param_key (args !! "id") = Some (next_id (map Note.id (notes st))) ->
  let st1 := step env (PostNoteAdd form) st in
  (exists n,
      notes st1 = (notes st ++ [n])%list
      /\ Note.id n = next_id (map Note.id (notes st))
      /\ Note.user_id n = User.id u
      /\ Note.note_title n = default EmptyString (form !! "title")
      /\ Note.note_content n = default EmptyString (form !! "content"))
  /\ (exists u1, current_user st1 = Some u1 /\ User.achievement_first_note u1 = true)
  /\ notes (step env' (GetNoteDelete args) st1) = notes st.
Proof.
  intros Hcur Hkey st1.
  set (n := {| Note.id := next_id (map Note.id (notes st));
               Note.user_id := User.id u;
               Note.note_title := default EmptyString (form !! "title");
               Note.note_content := default EmptyString (form !! "content");
               Note.last_modified_at := utcnow env |}).
  set (u1 := if negb (User.achievement_first_note u)
             then User.set_achievement_first_note true u else u).
  assert (st1 = commit_user u1 (set_notes (notes st ++ [n]) st)) as Hst1.
  { unfold st1, step, dispatch, handle_add_note, login_required. now rewrite Hcur. }
  assert (User.id u1 = User.id u) as Hid by (unfold u1; now destruct (negb _)).
  assert (current_user st1 = Some u1) as Hcur1.
  { rewrite Hst1. now apply (current_user_commit u _ st). }
  assert (forall r, In r (notes st) -> Note.id r <> Note.id n) as Hfresh.
  { intros r Hr E. apply (next_id_fresh (map Note.id (notes st))).
    change (next_id (map Note.id (notes st))) with (Note.id n). rewrite <- E.
    now apply in_map. }
  assert (find_owned_note (args !! "id") u1 st1 = Some n) as Hfind.
  { rewrite Hst1. unfold find_owned_note. simpl. rewrite find_app_missing.
    - simpl. unfold note_owned_by. simpl. rewrite Hid, Z.eqb_refl.
      now rewrite (proj2 (id_matches_key _ _) Hkey).
    - destruct (find _ (notes st)) as [r|] eqn:Hr; [|reflexivity].
      apply find_some in Hr as [Hin Hp]. apply andb_prop in Hp as [Hm _].
      apply id_matches_key in Hm. rewrite Hkey in Hm. injection Hm as Hm.
      now destruct (Hfresh r Hin). }
  split; [|split].
  - exists n. rewrite Hst1. now repeat split.
  - exists u1. split; [exact Hcur1|]. unfold u1.
    now destruct (User.achievement_first_note u) eqn:Hf.
  - unfold step, dispatch, handle_delete_note, login_required.
    rewrite Hcur1, Hfind. simpl. rewrite Hst1. simpl.
    rewrite filter_app, (filter_cons _ n []), Z.eqb_refl. simpl.
    rewrite app_nil_r. apply filter_all_kept. intros r Hr.
    apply negb_true_iff, Z.eqb_neq. now apply Hfresh.
Qed.

(** ** The summaries and the pages *)

Lemma filter_split_length {A : Type} (p q : A -> bool) (l : list A) :
  length (filter (fun x => p x) l)
  = (length (filter (fun x => p x && negb (q x)) l)
     + length (filter (fun x => p x && q x) l))%nat.
Proof.
  induction l as [|x l IH]; [reflexivity|].
  rewrite !filter_cons. destruct (p x), (q x); simpl;
    repeat match goal with
           | |- context [decide (Is_true true)] =>
               destruct (decide (Is_true true)) as [_|N]; [|now destruct N]
           | |- context [decide (Is_true false)] =>
               destruct (decide (Is_true false)) as [[]|_]
           end; simpl; lia.
Qed.

(** X24.  The figures of the dashboard agree with the pages they summarise,
    viewed right after it: the active tasks are as many as the timetable's
    incomplete tasks, the notes as many as the notes page lists, the points
    and the balance are those of the settings and the budget page; and the
    task count of the settings page is the timetable's two lists together. *)
Theorem dashboard_agrees_with_pages (env : Env) (st : State) (u : User.t) :
  current_user st = Some u ->
  exists st' h inc fin ns nt nn fp b,
    show_dashboard env st = Done st' [] (RenderHome h)
    /\ show_tasks_page env st' = Done st' [] (RenderTimetable inc fin (today env))
    /\ show_notes_page st' = Done st' [] (RenderNotes ns)
    /\ show_settings_page st' = Done st' [] (RenderSettings nt nn fp)
    /\ show_budget_page env st' = Done st' [] (RenderBudget b)
    /\ Home.active_tasks_count h = Z_count inc
    /\ nt = Z_count inc + Z_count fin
    /\ Home.total_notes_count h = Z_count ns
    /\ nn = Z_count ns
    /\ Home.focus_points h = fp
    /\ Home.current_balance h = Budget.current_balance b.
Proof.
  intros Hcur.
  unfold show_dashboard, show_tasks_page, show_notes_page, show_settings_page,
    show_budget_page, login_required, reset_if_new_day.
  rewrite Hcur.
  destruct (negb (opt_Z_eqb (User.focus_tracking_date u) (Some (today env)))).
  - set (u' := User.set_focus_tracking_date _ _).
    assert (current_user (commit_user u' st) = Some u') as Hcur'
      by (now apply (current_user_commit u u' st st)).
    destruct (daily_goal u' (commit_user u' st)) as [goal message].
    do 9 eexists. rewrite Hcur'.
    split; [reflexivity|]. split; [reflexivity|]. split; [reflexivity|].
    split; [reflexivity|]. split; [reflexivity|]. simpl.
    split; [reflexivity|].
    split; [unfold Z_count; rewrite (filter_split_length (owned_by u') Task.is_completed); lia|].
    repeat split.
  - destruct (daily_goal u st) as [goal message].
    do 9 eexists. rewrite Hcur.
    split; [reflexivity|]. split; [reflexivity|]. split; [reflexivity|].
    split; [reflexivity|]. split; [reflexivity|]. simpl.
    split; [reflexivity|].
    split; [unfold Z_count; rewrite (filter_split_length (owned_by u) Task.is_completed); lia|].
    repeat split.
Qed.

(** ** Logging out and in *)

Lemma session_of_current_user (st : State) (u : User.t) :
  current_user st = Some u -> session_user st = Some (User.id u).
Proof.
  unfold current_user. destruct (session_user st) as [uid|]; [|discriminate].
  intros H. now rewrite (load_user_id _ _ _ H).
Qed.

(** X25.  Logging out and logging in again as the same user gives back the
    stored state as it was, when the First Steps flag was set; when it was
    not, the flag is set and nothing else differs. *)
Theorem logout_then_login_restores (env env' : Env) (form : gmap string string)
    (st : State) (u : User.t) :
  current_user st = Some u ->
  login_candidate (Text.field_normalised form "email") st = Some u ->
  check_password_hash (User.password_hash u) (form !! "password") = Some true ->
  step env' (PostLogin form) (step env GetLogout st)
  = if User.achievement_first_login u then st
    else commit_user (User.set_achievement_first_login true u) st.
Proof.
  intros Hcur Hcand Hcheck.
  pose proof (session_of_current_user _ _ Hcur) as Hsession.
  assert (step env GetLogout st = set_session_user None st) as ->.
  { unfold step, dispatch, handle_logout, login_required. now rewrite Hcur. }
  unfold step, dispatch, handle_login. unfold login_candidate in Hcand.
  simpl users. rewrite Hcand. simpl. rewrite Hcheck. simpl.
  destruct (User.achievement_first_login u); simpl.
  - destruct st; simpl in *. now rewrite Hsession.
  - unfold commit_user. destruct st; simpl in *. now rewrite Hsession.
Qed.

(** ** Editing a task or a note *)

Lemma in_replace_key {A : Type} (key : A -> Z) (l : list A) (t t' r : A) :
  NoDup (map key l) -> In t l -> key t' = key t ->
  In r (map (fun x => if key x =? key t' then t' else x) l)
  <-> r = t' \/ (In r l /\ r <> t).
Proof.
  intros Hnd Ht Hk. rewrite in_map_iff. split.
  - intros (x & Hx & Hin). destruct (Z.eqb_spec (key x) (key t')) as [E|E].
    + left. now symmetry.
    + right. subst r. split; [exact Hin|]. intros ->. now apply E.
  - intros [->|[Hin Hne]].
    + exists t. split; [|exact Ht]. now rewrite <- Hk, Z.eqb_refl.
    + exists r. split; [|exact Hin]. now apply (replace_unique_key key l t).
Qed.

(** X26.  Editing an owned task, with distinct task ids, changes that task
    and no other row: the task gets the title, dates and priority submitted
    and keeps its id, owner and completion state, so no points move.  An
    edit whose date does not parse, or which has no title, raises and stores
    nothing. *)
Theorem task_edit_changes_one_task (env : Env) (form : gmap string string) (st : State)
    (u : User.t) (t : Task.t) :
  NoDup (map Task.id (tasks st)) ->
  current_user st = Some u ->
  find_owned_task (form !! "task_id") u st = Some t ->
  (forall title start deadline,
      form !! "title" = Some title ->
      date_field form "start_date" (Some (today env)) = Some start ->
      date_field form "deadline_date" None = Some deadline ->
      let st' := step env (PostTaskUpdate form) st in
      let t' :=
        Task.set_priority_level (default "medium" (form !! "priority"))
          (Task.set_deadline_date deadline
             (Task.set_start_date (default (today env) start)
                (Task.set_task_title title t))) in
      users st' = users st /\ notes st' = notes st
      /\ transactions st' = transactions st
      /\ (forall r, In r (tasks st') <-> r = t' \/ (In r (tasks st) /\ r <> t))
      /\ Task.id t' = Task.id t /\ Task.user_id t' = Task.user_id t
      /\ Task.is_completed t' = Task.is_completed t
      /\ find_owned_task (form !! "task_id") u st' = Some t')
  /\ (date_field form "start_date" (Some (today env)) = None
      \/ date_field form "deadline_date" None = None ->
      dispatch env (PostTaskUpdate form) st = Raised "ValueError"
      /\ step env (PostTaskUpdate form) st = st)
  /\ (form !! "title" = None ->
      (exists e, dispatch env (PostTaskUpdate form) st = Raised e)
      /\ step env (PostTaskUpdate form) st = st).
Proof.
  intros Hnd Hcur Hfind.
  destruct (find_owned_task_spec _ _ _ _ Hfind) as [Hin Hown].
  split; [|split].
  - intros title start deadline Htitle Hstart Hdeadline st' t'.
    assert (st' = commit_task t' st) as Hst'.
    { unfold st', step, dispatch, handle_update_task, login_required.
      rewrite Hcur, Hfind, Hstart, Hdeadline, Htitle. reflexivity. }
    assert (forall r, In r (tasks st') <-> r = t' \/ (In r (tasks st) /\ r <> t)) as Hrows.
    { intros r. rewrite Hst'. simpl.
      now apply (in_replace_key Task.id (tasks st) t t' r). }
    split; [now rewrite Hst'|]. split; [now rewrite Hst'|]. split; [now rewrite Hst'|].
    split; [exact Hrows|]. split; [reflexivity|]. split; [reflexivity|].
    split; [reflexivity|].
    rewrite Hst'. now apply (find_owned_task_commit _ u st t t').
  - intros Hbad. unfold step, dispatch, handle_update_task, login_required.
    rewrite Hcur, Hfind.
    destruct Hbad as [->| ->]; [now split|].
    destruct (date_field form "start_date" _); now split.
  - intros Htitle. unfold step, dispatch, handle_update_task, login_required.
    rewrite Hcur, Hfind, Htitle.
    destruct (date_field form "start_date" _); [|split; [now eexists | reflexivity]].
    destruct (date_field form "deadline_date" _); (split; [now eexists | reflexivity]).
Qed.

(** X27.  Editing an owned note, with distinct note ids, changes that note
    and no other row: it gets the title and content submitted (empty when
    missing) and keeps its id and owner; its modification time becomes the
    time of the request when the title or the content differ from the
    stored ones, and resubmitting both as stored leaves the whole state as
    it was. *)
Theorem note_edit_changes_one_note (env : Env) (form : gmap string string) (st : State)
    (u : User.t) (n : Note.t) :
  NoDup (map Note.id (notes st)) ->
  current_user st = Some u ->
  find_owned_note (form !! "note_id") u st = Some n ->
  let title := default EmptyString (form !! "title") in
  let content := default EmptyString (form !! "content") in
  let st' := step env (PostNoteUpdate form) st in
  (title = Note.note_title n /\ content = Note.note_content n -> st' = st)
  /\ (title <> Note.note_title n \/ content <> Note.note_content n ->
      let n' :=
        {| Note.id := Note.id n; Note.user_id := Note.user_id n;
           Note.note_title := title; Note.note_content := content;
           Note.last_modified_at := utcnow env |} in
      (forall r, In r (notes st') <-> r = n' \/ (In r (notes st) /\ r <> n))
      /\ users st' = users st /\ tasks st' = tasks st
      /\ transactions st' = transactions st).
Proof.
  intros Hnd Hcur Hfind title content st'.
  destruct (find_owned_note_spec _ _ _ _ Hfind) as [Hin Hown].
  assert (dispatch env (PostNoteUpdate form) st
          = Done (commit_note
                    (if negb (String.eqb title (Note.note_title n)
                              && String.eqb content (Note.note_content n))
                     then Note.set_last_modified_at (utcnow env)
                            (Note.set_note_content content (Note.set_note_title title n))
                     else Note.set_note_content content (Note.set_note_title title n)) st)
              [("Note updated!", "success")] (Redirect "show_notes_page")) as Hd.
  { unfold dispatch, handle_update_note, login_required. now rewrite Hcur, Hfind. }
  split.
  - intros [Ht Hc]. unfold st', step. rewrite Hd. simpl.
    rewrite Ht, Hc, !String.eqb_refl. simpl.
    assert (Note.set_note_content (Note.note_content n)
              (Note.set_note_title (Note.note_title n) n) = n) as -> by now destruct n.
    unfold commit_note.
    assert (map (fun r => if Note.id r =? Note.id n then n else r) (notes st) = notes st) as ->.
    { rewrite <- (map_id (notes st)) at 2. apply map_ext_in. intros r Hr.
      destruct (Z.eqb_spec (Note.id r) (Note.id n)) as [E|E]; [|reflexivity].
      symmetry. now apply (key_unique Note.id (notes st)). }
    now destruct st.
  - intros Hdiff n'. unfold st', step. rewrite Hd. simpl state_after.
    assert (negb (String.eqb title (Note.note_title n)
                  && String.eqb content (Note.note_content n)) = true) as ->.
    { apply negb_true_iff, andb_false_iff.
      destruct Hdiff as [H|H]; [left|right]; now apply String.eqb_neq. }
    assert (Note.set_last_modified_at (utcnow env)
              (Note.set_note_content content (Note.set_note_title title n)) = n') as ->
      by now destruct n.
    split; [|now repeat split].
    intros r. simpl. now apply (in_replace_key Note.id (notes st) n n' r).
Qed.

End Handlers.

(** ** The theorems on the sample data *)

#[local] Abbreviation demo_step :=
  (step Demo.generate_password_hash Demo.check_password_hash Demo.strptime_date
        Demo.float_of_text Demo.int_of_text).
#[local] Abbreviation demo_run :=
  (run Demo.generate_password_hash Demo.check_password_hash Demo.strptime_date
       Demo.float_of_text Demo.int_of_text).
#[local] Abbreviation demo_dispatch :=
  (dispatch Demo.generate_password_hash Demo.check_password_hash Demo.strptime_date
            Demo.float_of_text Demo.int_of_text).

Lemma demo_primary_key (u : User.t) : primary_key (Demo.store u).
Proof. unfold primary_key. simpl. apply NoDup_singleton. Qed.

Example normalised_field :
  Text.field_normalised (Demo.form [("email", "  Alice@Example.ORG ")]) "email"
  = "alice@example.org".
Proof. reflexivity. Qed.

Example round_to_tenths :
  this (Num.py_round (Q2Qc (25 # 100)) 1) = 1 # 5
  /\ this (Num.py_round (Q2Qc (75 # 100)) 1) = 4 # 5
  /\ this (Num.py_round (Q2Qc (1234 # 1000)) 2) = 123 # 100.
Proof. repeat split; vm_compute; reflexivity. Qed.

Example truncation_toward_zero :
  int_of_quotient 17000000 5000000 = 3 /\ int_of_quotient (-100) 30 = -3.
Proof. split; reflexivity. Qed.

(** Logging in with the email in capitals, then registering a second user
    without an email: two users, the second with id 2 and the Connected
    flag false. *)
Example login_then_register :
  let st := set_session_user None (Demo.store Demo.alice) in
  let st1 :=
    demo_step Demo.env
      (PostLogin (Demo.form [("email", "ALICE@example.org"); ("password", "secret")])) st in
  let st2 :=
    demo_step Demo.env
      (PostRegister (Demo.form [("username", "Bob"); ("password", "pw");
                                ("confirm_password", "pw")])) st1 in
  session_user st1 = Some 1
  /\ map User.id (users st2) = [1; 2]
  /\ (User.achievement_email_added <$> load_user_by_id 2 st2) = Some false
  /\ (User.username <$> load_user_by_id 2 st2) = Some "bob".
Proof. cbv zeta. repeat split; vm_compute; reflexivity. Qed.

(** A body whose minutes are text raises, and nothing is stored. *)
Example session_complete_text_minutes :
  demo_step Demo.env
    (PostFocusCompleteSession (Demo.json [("minutes", PyStr "ten")]))
    (Demo.store Demo.alice)
  = Demo.store Demo.alice.
Proof. reflexivity. Qed.



(** A profile update that clears the email, then a first note: the flags of
    the sample user that were true are still true. *)
Lemma achievements_never_reset_witness :
  exists u',
    load_user_by_id 1
      (demo_run [(Demo.env, PostSettingsProfile (Demo.form []));
                 (Demo.env, PostNoteAdd (Demo.form [("content", "milk")]))]
         (Demo.store Demo.alice)) = Some u'
    /\ flags_kept Demo.alice u'.
Proof.
  apply (achievements_never_reset Demo.generate_password_hash Demo.check_password_hash
           Demo.strptime_date Demo.float_of_text Demo.int_of_text
           _ (Demo.store Demo.alice) 1 Demo.alice).
  - apply demo_primary_key.
  - repeat constructor.
  - reflexivity.
Defined.

(** Three stars and seventeen seconds: nine units of energy. *)
Lemma energy_accrual_witness :
  energy_accumulated (utcnow Demo.env) Demo.alice = 9
  /\ exists u',
       current_user (demo_step Demo.env GetFocus (Demo.store Demo.alice)) = Some u'
       /\ User.energy_bank_balance u' = 9
       /\ User.last_energy_collection_time u' = 17000000.
Proof.
  destruct (energy_accrual Demo.generate_password_hash Demo.check_password_hash
              Demo.strptime_date Demo.float_of_text Demo.int_of_text
              Demo.env (Demo.store Demo.alice) Demo.alice eq_refl)
    as (He & Hpos & _).
  - simpl. lia.
  - split; [exact He|]. apply Hpos. reflexivity.
Defined.



(** Three toggles of the sample high priority task: 60 points. *)
Lemma toggle_awards_by_priority_witness :
  let toggle := demo_step Demo.env (GetTaskToggle (Demo.form [("id", "1")])) in
  exists u3,
    current_user (toggle (toggle (toggle (Demo.store Demo.alice)))) = Some u3
    /\ User.total_focus_points u3 = 60.
Proof.
  pose proof (toggle_awards_by_priority Demo.generate_password_hash
                Demo.check_password_hash Demo.strptime_date Demo.float_of_text
                Demo.int_of_text Demo.env (Demo.form [("id", "1")])
                (Demo.store Demo.alice) Demo.alice Demo.essay eq_refl eq_refl) as H.
  cbv zeta in *. destruct H as (_ & _ & _ & _ & _ & H3).
  destruct (H3 eq_refl eq_refl) as (u3 & Hc & _ & Hp).
  exists u3. split; [exact Hc | exact Hp].
Defined.



(** The counter stored on day 9 is read on day 10. *)
Lemma daily_reset_before_use_witness :
  (exists st' v,
      show_dashboard Demo.env (Demo.store Demo.alice) = Done st' [] (RenderHome v)
      /\ Home.focus_minutes_today v = 0)
  /\ (exists st' resp u',
        handle_session_complete Demo.env (Demo.json [("minutes", PyInt 40)])
          (Demo.store Demo.alice) = Done st' [] resp
        /\ current_user st' = Some u'
        /\ User.focus_minutes_today u' = 40
        /\ User.focus_tracking_date u' = Some 10).
Proof.
  destruct (daily_reset_before_use Demo.env (Demo.store Demo.alice) Demo.alice 9
              eq_refl eq_refl eq_refl) as ((st' & v & u' & Hrun & _ & _ & _ & Hv & _) & Hs).
  split.
  - exists st', v. split; [exact Hrun | exact Hv].
  - apply Hs. reflexivity.
Defined.


(** Registering the name of the sample user again. *)
Lemma validation_failure_mutates_nothing_witness :
  exists msg endpoint,
    demo_dispatch Demo.env
      (PostRegister (Demo.form [("username", " Alice "); ("password", "x");
                                ("confirm_password", "x")]))
      (Demo.store Demo.alice)
    = Done (Demo.store Demo.alice) [(msg, "error")] (Redirect endpoint).
Proof.
  destruct (validation_failure_mutates_nothing Demo.generate_password_hash
              Demo.check_password_hash Demo.strptime_date Demo.float_of_text
              Demo.int_of_text Demo.env
              (PostRegister (Demo.form [("username", " Alice "); ("password", "x");
                                        ("confirm_password", "x")]))
              (Demo.store Demo.alice))
    as (msg & endpoint & Hrun & _).
  - apply (register_username_taken _ _ _ Demo.alice); [now left | reflexivity].
  - exists msg, endpoint. exact Hrun.
Defined.


(** ** The further properties on the sample data *)

Lemma sample_keys_unique : keys_unique Sample.store.
Proof.
  unfold keys_unique. simpl.
  repeat split; apply (bool_decide_unpack _); vm_compute; exact I.
Qed.

Lemma sample_identities_unique : identities_unique Sample.store.
Proof.
  intros a b [<-|[<-|[]]] [<-|[<-|[]]] [Hn | (ea & eb & Ha & Hb & He)];
    try reflexivity; try discriminate.
Qed.


Lemma protected_routes_need_login_witness :
  exists flashes,
    demo_dispatch Demo.env GetHome (demo_step Sample.early GetLogout Sample.store)
    = Done (demo_step Sample.early GetLogout Sample.store) flashes Unauthorized.
Proof.
  exact (proj2 (protected_routes_need_login Demo.generate_password_hash
                  Demo.check_password_hash Demo.strptime_date Demo.float_of_text
                  Demo.int_of_text Demo.env Sample.early GetHome Sample.store eq_refl)).
Defined.

Lemma plain_views_store_nothing_witness :
  demo_step Demo.env GetBudget Sample.store = Sample.store.
Proof.
  exact (plain_views_store_nothing Demo.generate_password_hash
           Demo.check_password_hash Demo.strptime_date Demo.float_of_text
           Demo.int_of_text Demo.env GetBudget Sample.store eq_refl).
Defined.

Lemma failed_login_stores_nothing_witness :
  demo_dispatch Demo.env
    (PostLogin (Demo.form [("email", "Alice"); ("password", "guess")])) Sample.store
  = Done Sample.store [("Invalid email/username or password", "error")]
      (Redirect "show_landing_page").
Proof.
  apply (failed_login_stores_nothing Demo.generate_password_hash
           Demo.check_password_hash Demo.strptime_date Demo.float_of_text
           Demo.int_of_text).
  right. exists Demo.alice. split; reflexivity.
Defined.

Lemma keys_stay_unique_witness :
  keys_unique
    (demo_step Demo.env (PostNoteAdd (Demo.form [("content", "eggs")])) Sample.store).
Proof.
  apply (keys_stay_unique Demo.generate_password_hash Demo.check_password_hash
           Demo.strptime_date Demo.float_of_text Demo.int_of_text).
  exact sample_keys_unique.
Defined.

Lemma rows_of_others_untouched_witness :
  let st' := demo_step Demo.env (GetTaskDelete (Demo.form [("id", "3")])) Sample.store in
  tasks_of_others Demo.alice st' = tasks_of_others Demo.alice Sample.store
  /\ notes_of_others Demo.alice st' = notes_of_others Demo.alice Sample.store
  /\ transactions_of_others Demo.alice st'
     = transactions_of_others Demo.alice Sample.store.
Proof.
  apply (rows_of_others_untouched Demo.generate_password_hash Demo.check_password_hash
           Demo.strptime_date Demo.float_of_text Demo.int_of_text).
  - reflexivity.
  - exact sample_keys_unique.
Defined.

Lemma unknown_row_is_ignored_witness :
  demo_dispatch Demo.env (GetTaskToggle (Demo.form [("id", "3")])) Sample.store
  = Done Sample.store [] (Redirect "show_tasks_page").
Proof.
  destruct (unknown_row_is_ignored Demo.generate_password_hash Demo.check_password_hash
              Demo.strptime_date Demo.float_of_text Demo.int_of_text
              Demo.env (Demo.form [("id", "3")]) Sample.store Demo.alice eq_refl)
    as (_ & Htoggle & _).
  apply Htoggle.
  intros t [<-|[<-|[<-|[]]]] Hown; try discriminate Hown; vm_compute; discriminate.
Defined.

Lemma toggle_twice_restores_tasks_witness :
  tasks (demo_step Demo.env (GetTaskToggle (Demo.form [("id", "1")]))
           (demo_step Sample.early (GetTaskToggle (Demo.form [("id", "1")])) Sample.store))
  = tasks Sample.store.
Proof.
  apply (toggle_twice_restores_tasks Demo.generate_password_hash
           Demo.check_password_hash Demo.strptime_date Demo.float_of_text
           Demo.int_of_text).
  exact (proj1 (proj2 sample_keys_unique)).
Defined.

Lemma delete_task_removes_it_witness :
  let st' := demo_step Demo.env (GetTaskDelete (Demo.form [("id", "1")])) Sample.store in
  (forall r, In r (tasks st') <-> In r (tasks Sample.store) /\ r <> Demo.essay)
  /\ demo_step Sample.early (GetTaskDelete (Demo.form [("id", "1")])) st' = st'.
Proof.
  destruct (delete_task_removes_it Demo.generate_password_hash
              Demo.check_password_hash Demo.strptime_date Demo.float_of_text
              Demo.int_of_text Demo.env Sample.early (Demo.form [("id", "1")])
              Sample.store Demo.alice Demo.essay
              (proj1 (proj2 sample_keys_unique)) eq_refl eq_refl)
    as (Hrows & _ & _ & _ & Hagain).
  split; [exact Hrows | exact Hagain].
Defined.

Lemma added_task_is_completable_witness :
  exists u2,
    current_user
      (demo_step Demo.env (GetTaskToggle (Demo.form [("id", "4")]))
         (demo_step Sample.early (PostTaskAdd (Demo.form [("title", "read")]))
            Sample.store)) = Some u2
    /\ User.total_focus_points u2 = 20.
Proof.
  destruct (added_task_is_completable Demo.generate_password_hash
              Demo.check_password_hash Demo.strptime_date Demo.float_of_text
              Demo.int_of_text Sample.early Demo.env (Demo.form [("title", "read")])
              (Demo.form [("id", "4")]) Sample.store Demo.alice "read"
              eq_refl eq_refl I I eq_refl)
    as (_ & _ & u2 & Hcur & Hp).
  exists u2. split; [exact Hcur | exact Hp].
Defined.


Lemma identities_stay_unique_witness :
  identities_unique
    (demo_step Demo.env
       (PostSettingsProfile (Demo.form [("email", "Alice@New.org")])) Sample.store).
Proof.
  apply (identities_stay_unique Demo.generate_password_hash Demo.check_password_hash
           Demo.strptime_date Demo.float_of_text Demo.int_of_text).
  exact sample_identities_unique.
Defined.

Lemma account_deletion_removes_everything_witness :
  let st' :=
    demo_step Demo.env (PostSettingsDelete (Demo.form [("password", "secret")]))
      Sample.store in
  load_user_by_id 1 st' = None
  /\ session_user st' = None
  /\ (forall t, In t (tasks st') <-> In t (tasks Sample.store) /\ Task.user_id t <> 1).
Proof.
  destruct (account_deletion_removes_everything Demo.generate_password_hash
              Demo.check_password_hash Demo.strptime_date Demo.float_of_text
              Demo.int_of_text Demo.env Sample.early
              (Demo.form [("password", "secret")]) Sample.store Demo.alice eq_refl)
    as (_ & Hok).
  destruct (Hok eq_refl) as (Hgone & Hsession & _ & Htasks & _).
  split; [exact Hgone|]. split; [exact Hsession | exact Htasks].
Defined.

Lemma early_view_costs_at_most_one_period_witness :
  exists a b,
    current_user (demo_step Demo.env GetFocus (demo_step Sample.early GetFocus Sample.store))
    = Some a
    /\ current_user (demo_step Demo.env GetFocus Sample.store) = Some b
    /\ User.energy_bank_balance b - User.stars_earned Demo.alice
       <= User.energy_bank_balance a
    /\ User.energy_bank_balance a <= User.energy_bank_balance b.
Proof.
  apply (early_view_costs_at_most_one_period Demo.generate_password_hash
           Demo.check_password_hash Demo.strptime_date Demo.float_of_text
           Demo.int_of_text Sample.early Demo.env Sample.store Demo.alice).
  - reflexivity.
  - vm_compute; discriminate.
  - vm_compute; discriminate.
  - vm_compute; discriminate.
Defined.

Lemma session_forfeits_pending_energy_witness :
  exists u1 u2,
    current_user
      (demo_step Sample.early
         (PostFocusCompleteSession (Demo.json [("minutes", PyInt 25)])) Sample.store)
    = Some u1
    /\ User.energy_bank_balance u1 = User.energy_bank_balance Demo.alice
    /\ User.last_energy_collection_time u1 = utcnow Sample.early
    /\ current_user
         (demo_step Demo.env GetFocus
            (demo_step Sample.early
               (PostFocusCompleteSession (Demo.json [("minutes", PyInt 25)]))
               Sample.store))
       = Some u2
    /\ User.energy_bank_balance u2
       = User.energy_bank_balance Demo.alice
         + (utcnow Demo.env - utcnow Sample.early) / 5000000
           * (User.stars_earned Demo.alice + 1).
Proof.
  apply (session_forfeits_pending_energy Demo.generate_password_hash
           Demo.check_password_hash Demo.strptime_date Demo.float_of_text
           Demo.int_of_text Sample.early Demo.env
           (Demo.json [("minutes", PyInt 25)]) Sample.store Demo.alice 25).
  - reflexivity.
  - vm_compute; reflexivity.
  - vm_compute; discriminate.
  - vm_compute; discriminate.
Defined.

Lemma dashboard_figures_in_range_witness :
  exists st' v,
    show_dashboard Demo.env Sample.store = Done st' [] (RenderHome v)
    /\ (Home.daily_focus_goal v = 0 \/ Home.daily_focus_goal v = 10
        \/ Home.daily_focus_goal v = 15 \/ Home.daily_focus_goal v = 30)
    /\ Home.progress_percentage v <= 100
    /\ (0 <= Home.focus_minutes_today v -> 0 <= Home.progress_percentage v)
    /\ (0 < Home.daily_focus_goal v ->
        (Home.progress_percentage v = 100
         <-> Home.daily_focus_goal v <= Home.focus_minutes_today v))
    /\ 0 <= Home.unlocked_count v <= 5
    /\ 0 <= Home.active_tasks_count v.
Proof.
  exact (dashboard_figures_in_range Demo.env Sample.store Demo.alice eq_refl).
Defined.


Lemma demo_account_is_created_once_witness :
  exists st1,
    create_demo_account Demo.generate_password_hash Demo.env Sample.store = Some st1
    /\ (exists r, In r (users st1) /\ User.username r = "artur")
    /\ create_demo_account Demo.generate_password_hash Sample.early st1 = Some st1.
Proof.
  destruct (create_demo_account Demo.generate_password_hash Demo.env Sample.store)
    as [st1|] eqn:Hcreate; [|discriminate Hcreate].
  exists st1. split; [reflexivity|].
  destruct (demo_account_is_created_once Demo.generate_password_hash Demo.env
              Sample.early Sample.store st1 Hcreate) as (Hartur & _ & Hagain).
  split; [exact Hartur | exact Hagain].
Defined.

Lemma expense_windows_are_nested_witness :
  exists v,
    show_budget_page Demo.env Sample.store = Done Sample.store [] (RenderBudget v)
    /\ (Q2Qc 0 <= Budget.weekly_expenses v)%Qc
    /\ (Budget.weekly_expenses v <= Budget.monthly_expenses v)%Qc
    /\ (Budget.monthly_expenses v <= Budget.total_expenses v)%Qc.
Proof.
  apply (expense_windows_are_nested Demo.env Sample.store Demo.alice eq_refl).
  intros x [<-|[<-|[<-|[<-|[]]]]] _ _; vm_compute; discriminate.
Defined.

Lemma transaction_moves_its_own_sum_witness :
  let form := Demo.form [("amount", "12"); ("type", "expense"); ("description", "tea");
                         ("category", "food")] in
  let st' := demo_step Demo.env (PostTransactionAdd form) Sample.store in
  sum_of_type "expense" Demo.alice st'
  = (sum_of_type "expense" Demo.alice Sample.store + Q2Qc (inject_Z 12))%Qc
  /\ sum_of_type "income" Demo.alice st'
     = (sum_of_type "income" Demo.alice Sample.store + Q2Qc 0)%Qc.
Proof.
  intros form st'.
  destruct (transaction_moves_its_own_sum Demo.generate_password_hash
              Demo.check_password_hash Demo.strptime_date Demo.float_of_text
              Demo.int_of_text Demo.env Sample.early form Sample.store Demo.alice
              eq_refl) as (Hadd & _).
  destruct (Hadd "12" (Q2Qc (inject_Z 12)) "expense" "tea" "food") as (Hsum & _);
    try (vm_compute; reflexivity).
  split; [exact (Hsum "expense") | exact (Hsum "income")].
Defined.

Lemma new_password_decides_login_witness :
  let st1 :=
    demo_step Sample.early
      (PostSettingsPassword
         (Demo.form [("current_password", "secret"); ("new_password", "n3w");
                     ("confirm_password", "n3w")])) Sample.store in
  (exists st2 flashes,
      demo_dispatch Demo.env
        (PostLogin (Demo.form [("email", "alice"); ("password", "n3w")])) st1
      = Done st2 flashes (Redirect "show_dashboard")
      /\ session_user st2 = Some 1)
  /\ demo_dispatch Demo.env
       (PostLogin (Demo.form [("email", "alice"); ("password", "secret")])) st1
     = Done st1 [("Invalid email/username or password", "error")]
         (Redirect "show_landing_page").
Proof.
  intros st1. split.
  - apply (new_password_decides_login Demo.generate_password_hash
             Demo.check_password_hash Demo.strptime_date Demo.float_of_text
             Demo.int_of_text Sample.early Demo.env
             (Demo.form [("current_password", "secret"); ("new_password", "n3w");
                         ("confirm_password", "n3w")])
             (Demo.form [("email", "alice"); ("password", "n3w")])
             Sample.store Demo.alice "n3w" "s$n3w");
      vm_compute; reflexivity.
  - apply (new_password_decides_login Demo.generate_password_hash
             Demo.check_password_hash Demo.strptime_date Demo.float_of_text
             Demo.int_of_text Sample.early Demo.env
             (Demo.form [("current_password", "secret"); ("new_password", "n3w");
                         ("confirm_password", "n3w")])
             (Demo.form [("email", "alice"); ("password", "secret")])
             Sample.store Demo.alice "n3w" "s$n3w");
      vm_compute; reflexivity.
Defined.

Lemma profile_email_update_witness :
  exists u',
    current_user
      (demo_step Demo.env
         (PostSettingsProfile (Demo.form [("email", " Alice@New.org ")])) Sample.store)
    = Some u'
    /\ User.email u' = Some "alice@new.org"
    /\ User.achievement_email_added u' = true.
Proof.
  destruct (profile_email_update Demo.generate_password_hash
              Demo.check_password_hash Demo.strptime_date Demo.float_of_text
              Demo.int_of_text Demo.env
              (Demo.form [("email", " Alice@New.org ")]) Sample.store Demo.alice eq_refl)
    as (_ & Hfree & _); [vm_compute; discriminate|].
  destruct Hfree as (u' & Hcur & Hmail & Hflag & _).
  - vm_compute; discriminate.
  - intros r e [<-|[<-|[]]] [= <-]; vm_compute; discriminate.
  - exists u'. split; [exact Hcur|]. split; [exact Hmail | exact Hflag].
Defined.

Lemma added_note_can_be_deleted_witness :
  notes (demo_step Demo.env (GetNoteDelete (Demo.form [("id", "3")]))
           (demo_step Sample.early (PostNoteAdd (Demo.form [("content", "eggs")]))
              Sample.store))
  = notes Sample.store.
Proof.
  apply (added_note_can_be_deleted Demo.generate_password_hash
           Demo.check_password_hash Demo.strptime_date Demo.float_of_text
           Demo.int_of_text Sample.early Demo.env (Demo.form [("content", "eggs")])
           (Demo.form [("id", "3")]) Sample.store Demo.alice);
    vm_compute; reflexivity.
Defined.

Lemma dashboard_agrees_with_pages_witness :
  exists st' h inc fin ns nt nn fp b,
    show_dashboard Demo.env Sample.store = Done st' [] (RenderHome h)
    /\ show_tasks_page Demo.env st' = Done st' [] (RenderTimetable inc fin (today Demo.env))
    /\ show_notes_page st' = Done st' [] (RenderNotes ns)
    /\ show_settings_page st' = Done st' [] (RenderSettings nt nn fp)
    /\ show_budget_page Demo.env st' = Done st' [] (RenderBudget b)
    /\ Home.active_tasks_count h = Z_count inc
    /\ nt = Z_count inc + Z_count fin
    /\ Home.total_notes_count h = Z_count ns
    /\ nn = Z_count ns
    /\ Home.focus_points h = fp
    /\ Home.current_balance h = Budget.current_balance b.
Proof.
  exact (dashboard_agrees_with_pages Demo.env Sample.store Demo.alice eq_refl).
Defined.

Lemma logout_then_login_restores_witness :
  demo_step Demo.env (PostLogin (Demo.form [("email", "Alice"); ("password", "secret")]))
    (demo_step Sample.early GetLogout Sample.store)
  = if User.achievement_first_login Demo.alice then Sample.store
    else commit_user (User.set_achievement_first_login true Demo.alice) Sample.store.
Proof.
  apply (logout_then_login_restores Demo.generate_password_hash
           Demo.check_password_hash Demo.strptime_date Demo.float_of_text
           Demo.int_of_text Sample.early Demo.env
           (Demo.form [("email", "Alice"); ("password", "secret")])
           Sample.store Demo.alice);
    reflexivity.
Defined.

Lemma task_edit_changes_one_task_witness :
  let form := Demo.form [("task_id", "1"); ("title", "thesis"); ("priority", "high")] in
  let st' := demo_step Demo.env (PostTaskUpdate form) Sample.store in
  users st' = users Sample.store
  /\ (exists t', find_owned_task Demo.int_of_text (form !! "task_id") Demo.alice st' = Some t'
                 /\ Task.task_title t' = "thesis"
                 /\ Task.is_completed t' = Task.is_completed Demo.essay).
Proof.
  intros form st'.
  destruct (task_edit_changes_one_task Demo.generate_password_hash
              Demo.check_password_hash Demo.strptime_date Demo.float_of_text
              Demo.int_of_text Demo.env form Sample.store Demo.alice Demo.essay
              (proj1 (proj2 sample_keys_unique)) eq_refl eq_refl) as (Hedit & _).
  destruct (Hedit "thesis" (Some (today Demo.env)) None eq_refl eq_refl eq_refl)
    as (Husers & _ & _ & _ & _ & _ & _ & Hfound).
  split; [exact Husers|]. eexists. split; [exact Hfound|]. split; reflexivity.
Defined.

Lemma note_edit_changes_one_note_witness :
  demo_step Demo.env
    (PostNoteUpdate (Demo.form [("note_id", "1"); ("title", "shopping"); ("content", "milk")]))
    Sample.store
  = Sample.store.
Proof.
  apply (note_edit_changes_one_note Demo.generate_password_hash
           Demo.check_password_hash Demo.strptime_date Demo.float_of_text
           Demo.int_of_text Demo.env
           (Demo.form [("note_id", "1"); ("title", "shopping"); ("content", "milk")])
           Sample.store Demo.alice Sample.shopping
           (proj1 (proj2 (proj2 sample_keys_unique))) eq_refl eq_refl).
  split; reflexivity.
Defined.
